(** * health.py: a single-shot healthcheck probe

    A shallow embedding of [src/health.py] (class [Healthcheck] and the
    [__main__] block) and the properties of its control logic: service
    identity, configuration resolution, health decision, restart decision,
    logging order and exit status.

    Conventions of the embedding.
    - Python [str] values are Rocq strings; the code points of a JSON string
      are kept as numbers, since [json.dumps] escapes by code point.
    - Python [int] values are [Z].
    - The outside world (configuration file, HTTP server, system bus) is a
      record of answers, [World]; every call the script makes to it is
      recorded, in order, in a trace of [event]s together with the records
      the logger emits.
    - Exceptions are values of type [exn]; a computation yields its trace and
      either a value or the exception that left it.
    - A Python [str] is held as the bytes of its UTF-8 encoding. What the
      script takes from the Unicode database for text that is not ASCII
      ([str.lower], the digits [int] reads) is a parameter, [Python].
    - The configuration store is the one [configparser] builds when it reads
      the file: every section other than [DEFAULT] with its options, the
      options of [DEFAULT] included in each, names in lower case, values as
      [read] keeps them. [get] interpolates them ([BasicInterpolation]). A
      file [read] cannot parse makes it raise.
    - The calls to the outside return or raise; a call that never returns
      is not represented. *)

From Stdlib Require Import ZArith Lia Ascii DecimalPos.
From stdpp Require Import base option list strings gmap.

#[local] Set Warnings "-clear-no-such-hyp".

Local Open Scope Z_scope.
Local Open Scope string_scope.

(** ** Python string primitives *)

Module PyStr.

(** [s[:n]] for [0 <= n]. *)
Fixpoint take (n : nat) (s : string) : string :=
  match n, s with
  | O, _ => ""
  | S _, EmptyString => ""
  | S n', String a s' => String a (take n' s')
  end.

(** [s[n:]] for [0 <= n]. *)
Fixpoint drop (n : nat) (s : string) : string :=
  match n, s with
  | O, _ => s
  | S _, EmptyString => ""
  | S n', String _ s' => drop n' s'
  end.

(** [s[lo:hi]] for [0 <= lo]. *)
Definition slice (s : string) (lo hi : Z) : string :=
  take (Z.to_nat (hi - lo)) (drop (Z.to_nat lo) s).

(** [c in s] for a one-character [c]. *)
Fixpoint contains (c : ascii) (s : string) : bool :=
  match s with
  | EmptyString => false
  | String a s' => Ascii.eqb a c || contains c s'
  end.

(** The scan behind [s.rfind(c)]: [i] is the index of the head of [s],
    [last] the last index seen so far. *)
Fixpoint rfind_from (c : ascii) (s : string) (i last : Z) : Z :=
  match s with
  | EmptyString => last
  | String a s' => rfind_from c s' (i + 1) (if Ascii.eqb a c then i else last)
  end.

(** [s.rfind(c)]: the highest index of [c] in [s], [-1] when there is none. *)
Definition rfind (s : string) (c : ascii) : Z := rfind_from c s 0 (-1).

(** One piece of [s.split(sep)]: [cur] collects, reversed, the characters
    read since the last separator. *)
Fixpoint split_from (sep : ascii) (s : string) (cur : string) : list string :=
  match s with
  | EmptyString => [String.rev cur]
  | String a s' =>
      if Ascii.eqb a sep then String.rev cur :: split_from sep s' ""
      else split_from sep s' (String a cur)
  end.

(** [s.split(sep)] for a one-character separator. *)
Definition split (s : string) (sep : ascii) : list string := split_from sep s "".

(** [sep.join(l)]. *)
Fixpoint join (sep : string) (l : list string) : string :=
  match l with
  | [] => ""
  | [x] => x
  | x :: l' => x +:+ sep +:+ join sep l'
  end.

(** [s.isascii()]. *)
Fixpoint is_ascii (s : string) : bool :=
  match s with
  | EmptyString => true
  | String a s' => Nat.ltb (nat_of_ascii a) 128 && is_ascii s'
  end.

(** [s.count(c)] for a one-character [c]. *)
Fixpoint count (c : ascii) (s : string) : nat :=
  match s with
  | EmptyString => O
  | String a s' => if Ascii.eqb a c then S (count c s') else count c s'
  end.

(** [c.lower()] on the ASCII letters. *)
Definition lower_ascii (c : ascii) : ascii :=
  let n := nat_of_ascii c in
  if (Nat.leb 65 n && Nat.leb n 90)%bool then ascii_of_nat (n + 32) else c.

(** [s.lower()] for an ASCII [s]. *)
Fixpoint lower (s : string) : string :=
  match s with
  | EmptyString => ""
  | String a s' => String (lower_ascii a) (lower s')
  end.

End PyStr.

(** ** The interpreter

    What the script takes from the Python build it runs on: the Unicode
    database, for text that is not ASCII, and the limit on the number of
    digits [int] converts. *)

Record Python := {
  (** [s.lower()] for a [s] that is not ASCII *)
  lower_nonascii : string -> string;
  (** the ASCII text [int(s)] parses for a [s] that is not ASCII: the
      decimal digits of every script as ASCII digits, white space as
      spaces *)
  decimal_nonascii : string -> string;
  (** [sys.get_int_max_str_digits()]; 0 when the build has no limit *)
  int_max_str_digits : nat
}.

(** [s.lower()]: ASCII text takes the fast path. *)
Definition str_lower (py : Python) (s : string) : string :=
  if PyStr.is_ascii s then PyStr.lower s else lower_nonascii py s.

(** ** [os.path.splitext] (posixpath over genericpath._splitext) *)

Module OsPath.

Definition sep : ascii := "/"%char.
Definition extsep : ascii := "."%char.

(** The [while filenameIndex < dotIndex] loop of [_splitext]; [n] is the
    number of iterations left, [dotIndex - filenameIndex]. *)
Fixpoint splitext_loop (p : string) (dotIndex : Z) (n : nat) (filenameIndex : Z)
  : string * string :=
  match n with
  | O => (p, PyStr.take 0 p)
  | S n' =>
      if negb (String.eqb (PyStr.slice p filenameIndex (filenameIndex + 1))
                          (String extsep ""))
      then (PyStr.take (Z.to_nat dotIndex) p, PyStr.drop (Z.to_nat dotIndex) p)
      else splitext_loop p dotIndex n' (filenameIndex + 1)
  end.

Definition splitext (p : string) : string * string :=
  let sepIndex := PyStr.rfind p sep in
  let dotIndex := PyStr.rfind p extsep in
  if (dotIndex >? sepIndex)%Z then
    (* skip all leading dots *)
    let filenameIndex := sepIndex + 1 in
    splitext_loop p dotIndex (Z.to_nat (dotIndex - filenameIndex)) filenameIndex
  else (p, PyStr.take 0 p).

End OsPath.

(** ** Python numbers as text *)

Module PyNum.

Definition digit_char (d : nat) : ascii := ascii_of_nat (48 + d mod 10).

Fixpoint digits_str (ds : list nat) : string :=
  match ds with
  | [] => ""
  | d :: ds' => String (digit_char d) (digits_str ds')
  end.

(** The decimal digits of a positive number, most significant first. *)
Fixpoint uint_digits (u : Decimal.uint) : list nat :=
  match u with
  | Decimal.Nil => []
  | Decimal.D0 u' => 0%nat :: uint_digits u'
  | Decimal.D1 u' => 1%nat :: uint_digits u'
  | Decimal.D2 u' => 2%nat :: uint_digits u'
  | Decimal.D3 u' => 3%nat :: uint_digits u'
  | Decimal.D4 u' => 4%nat :: uint_digits u'
  | Decimal.D5 u' => 5%nat :: uint_digits u'
  | Decimal.D6 u' => 6%nat :: uint_digits u'
  | Decimal.D7 u' => 7%nat :: uint_digits u'
  | Decimal.D8 u' => 8%nat :: uint_digits u'
  | Decimal.D9 u' => 9%nat :: uint_digits u'
  end.

(** [repr(n)] (and [str(n)], ['{}'.format(n)]) of an [int]. *)
Definition int_repr (n : Z) : string :=
  match n with
  | Z0 => "0"
  | Zpos p => digits_str (uint_digits (Pos.to_uint p))
  | Zneg p => "-" +:+ digits_str (uint_digits (Pos.to_uint p))
  end.

(** A Python [float]: not-a-number, an infinity, or the shortest decimal
    digit string that reads back as the number, with the position of the
    decimal point relative to its first digit. *)
Inductive pyfloat :=
| FNan
| FInf (neg : bool)
| FFinite (neg : bool) (digits : list nat) (decpt : Z).

Definition zeros (n : Z) : string := digits_str (replicate (Z.to_nat n) 0%nat).

(** [float.__repr__] on a finite number: exponent notation when
    [decpt <= -4] or [decpt > 16], fixed notation otherwise. *)
Definition finite_repr (digits : list nat) (decpt : Z) : string :=
  let n := Z.of_nat (length digits) in
  if ((decpt <=? -4)%Z || (decpt >? 16)%Z)%bool then
    let e := decpt - 1 in
    let mant := match digits with
                | [] => "0"
                | [d] => digits_str [d]
                | d :: ds => digits_str [d] +:+ "." +:+ digits_str ds
                end in
    let ea := Z.abs e in
    mant +:+ "e" +:+ (if (e <? 0)%Z then "-" else "+")
         +:+ (if (ea <? 10)%Z then "0" else "") +:+ int_repr ea
  else if (decpt <=? 0)%Z then
    "0." +:+ zeros (- decpt) +:+ digits_str digits
  else if (n <=? decpt)%Z then
    digits_str digits +:+ zeros (decpt - n) +:+ ".0"
  else
    digits_str (take (Z.to_nat decpt) digits) +:+ "." +:+
    digits_str (drop (Z.to_nat decpt) digits).

(** [floatstr] of [json.encoder]: [float.__repr__], and the JavaScript
    names of the three values JSON has no syntax for. *)
Definition floatstr (f : pyfloat) : string :=
  match f with
  | FNan => "NaN"
  | FInf false => "Infinity"
  | FInf true => "-Infinity"
  | FFinite neg digits decpt =>
      (if neg then "-" else "") +:+ finite_repr digits decpt
  end.

Definition is_space (c : ascii) : bool :=
  let n := nat_of_ascii c in
  (Nat.eqb n 32 || (Nat.leb 9 n && Nat.leb n 13))%bool.

Fixpoint lstrip (s : string) : string :=
  match s with
  | String a s' => if is_space a then lstrip s' else s
  | EmptyString => ""
  end.

Definition strip (s : string) : string :=
  String.rev (lstrip (String.rev (lstrip s))).

Definition digit_val (c : ascii) : option Z :=
  let n := nat_of_ascii c in
  if (Nat.leb 48 n && Nat.leb n 57)%bool then Some (Z.of_nat (n - 48)) else None.

(** The digits of an integer literal: single underscores may separate
    digits. [acc] is the value read so far, [after_digit] tells whether the
    previous character was a digit. *)
Fixpoint int_digits (s : string) (acc : Z) (after_digit : bool) : option Z :=
  match s with
  | EmptyString => if after_digit then Some acc else None
  | String a s' =>
      match digit_val a with
      | Some d => int_digits s' (10 * acc + d) true
      | None =>
          if (Ascii.eqb a "_" && after_digit)%bool then int_digits s' acc false
          else None
      end
  end.

(** The number of digits of a literal. *)
Fixpoint count_digits (s : string) : nat :=
  match s with
  | EmptyString => O
  | String a s' =>
      match digit_val a with
      | Some _ => S (count_digits s')
      | None => count_digits s'
      end
  end.

(** An ASCII integer literal in base 10: white space around it, a sign,
    digits. *)
Definition int_literal (s : string) : option Z :=
  match strip s with
  | String "-" s' => Z.opp <$> int_digits s' 0 false
  | String "+" s' => int_digits s' 0 false
  | s' => int_digits s' 0 false
  end.

(** The limit on the digits of a literal: none up to 640 digits, and none
    at all when the limit is 0. *)
Definition within_digit_limit (py : Python) (digits : nat) : bool :=
  (Nat.leb digits 640 || Nat.eqb (int_max_str_digits py) 0
   || Nat.leb digits (int_max_str_digits py))%bool.

(** [int(s)] in base 10 for a [str]: [None] stands for [ValueError]. *)
Definition int_of_str (py : Python) (s : string) : option Z :=
  let text := if PyStr.is_ascii s then s else decimal_nonascii py s in
  match int_literal text with
  | Some n => if within_digit_limit py (count_digits text) then Some n else None
  | None => None
  end.

End PyNum.

(** ** JSON values and [json.dumps] *)

Module Json.

(** What [json.loads] returns. A string is its list of code points; an
    object keeps its keys in document order. *)
#[local] Unset Elimination Schemes.
Inductive json :=
| JNull
| JBool (b : bool)
| JInt (n : Z)
| JFloat (f : PyNum.pyfloat)
| JString (s : list N)
| JArray (items : list json)
| JObject (members : list (list N * json)).
#[local] Set Elimination Schemes.

Definition hex_digit (n : N) : ascii :=
  let d := N.to_nat (N.land n 15) in
  if Nat.ltb d 10 then ascii_of_nat (48 + d) else ascii_of_nat (87 + d).

(** [\uXXXX] for the low sixteen bits of [c]. *)
Definition u_escape (c : N) : string :=
  String "\" (String "u"
    (String (hex_digit (N.shiftr c 12)) (String (hex_digit (N.shiftr c 8))
    (String (hex_digit (N.shiftr c 4)) (String (hex_digit c) ""))))).

(** One code point under [ensure_ascii=True]. *)
Definition escape_char (c : N) : string :=
  if N.eqb c 34 then "\" +:+ String (ascii_of_nat 34) ""
  else if N.eqb c 92 then "\\"
  else if N.eqb c 10 then "\n"
  else if N.eqb c 13 then "\r"
  else if N.eqb c 9 then "\t"
  else if N.eqb c 12 then "\f"
  else if N.eqb c 8 then "\b"
  else if (N.leb 32 c && N.leb c 126)%bool then String (ascii_of_N c) ""
  else if N.ltb c 65536 then u_escape c
  else
    let v := (c - 65536)%N in
    u_escape (N.lor 55296 (N.land (N.shiftr v 10) 1023)) +:+
    u_escape (N.lor 56320 (N.land v 1023)).

Fixpoint escape (s : list N) : string :=
  match s with
  | [] => ""
  | c :: s' => escape_char c +:+ escape s'
  end.

Definition quote : string := String (ascii_of_nat 34) "".

(** [encode_basestring_ascii]. *)
Definition encode_basestring_ascii (s : list N) : string :=
  quote +:+ escape s +:+ quote.

(** The items of a list or dict, rendered by [f] and joined by the item
    separator [", "]. *)
Fixpoint comma_separated {A} (f : A -> string) (l : list A) : string :=
  match l with
  | [] => ""
  | x :: l' =>
      f x +:+ match l' with [] => "" | _ :: _ => ", " +:+ comma_separated f l' end
  end.

(** [json.dumps(j)] with the default options: no indent, separators
    [", "] and [": "], [ensure_ascii] on, [allow_nan] on. *)
Fixpoint dumps (j : json) : string :=
  match j with
  | JNull => "null"
  | JBool true => "true"
  | JBool false => "false"
  | JInt n => PyNum.int_repr n
  | JFloat f => PyNum.floatstr f
  | JString s => encode_basestring_ascii s
  | JArray items => "[" +:+ comma_separated dumps items +:+ "]"
  | JObject members =>
      "{" +:+
      comma_separated
        (fun kv => encode_basestring_ascii (fst kv) +:+ ": " +:+ dumps (snd kv))
        members
      +:+ "}"
  end.

(** Induction on JSON values, through the lists they nest. *)
Section Induction.
Variable P : json -> Prop.
Hypothesis Hnull : P JNull.
Hypothesis Hbool : forall b, P (JBool b).
Hypothesis Hint : forall n, P (JInt n).
Hypothesis Hfloat : forall f, P (JFloat f).
Hypothesis Hstring : forall s, P (JString s).
Hypothesis Harray : forall items, Forall P items -> P (JArray items).
Hypothesis Hobject :
  forall members, Forall (fun kv => P (snd kv)) members -> P (JObject members).

Fixpoint json_ind (j : json) : P j :=
  match j with
  | JNull => Hnull
  | JBool b => Hbool b
  | JInt n => Hint n
  | JFloat f => Hfloat f
  | JString s => Hstring s
  | JArray items =>
      Harray items
        ((fix all (l : list json) : Forall P l :=
            match l with
            | [] => @List.Forall_nil _ P
            | x :: l' => @List.Forall_cons _ P x l' (json_ind x) (all l')
            end) items)
  | JObject members =>
      Hobject members
        ((fix all (l : list (list N * json)) : Forall (fun kv => P (snd kv)) l :=
            match l with
            | [] => @List.Forall_nil _ (fun kv => P (snd kv))
            | kv :: l' => @List.Forall_cons _ (fun kv => P (snd kv)) kv l' (json_ind (snd kv)) (all l')
            end) members)
  end.
End Induction.

End Json.

(** ** Effects: the trace and exceptions *)

Inductive level := DEBUG | INFO | CRITICAL.

(** What a run does to the outside, in order. *)
Inductive event :=
| Log (lvl : level) (msg : string)      (* a record emitted by the logger *)
| HttpGet (uri : string)                (* requests.get(uri) *)
| SystemBus                             (* dbus.SystemBus() and get_object *)
| RestartUnit (name mode : string).     (* manager.RestartUnit(name, mode) *)

(** The values [run_check] returns and [sys.exit] receives. *)
Inductive pyval :=
| PyInt (n : Z)
| PyBool (b : bool).

(** The exceptions of a run. Those the script logs carry their message;
    a ValueError carries the value that did not convert. ParsingError
    stands for whatever [read] raises on the configuration file. *)
Inductive exn :=
| FileNotFoundError (msg : string)
| LookupError (msg : string)
| ParsingError (msg : string)
| NoSectionError (section : string)
| NoOptionError (opt section : string)
| InterpolationSyntaxError (opt section : string)
| InterpolationMissingOptionError (opt section reference : string)
| InterpolationDepthError (opt section : string)
| ValueError (value : string)
| JSONDecodeError
| ConnectionError (msg : string)
| RequestException (msg : string)
| DBusException (msg : string)
| SystemExit (code : pyval).

(** A computation: the events it produced, and the exception that left it
    or the value it returned. *)
Definition M (A : Type) : Type := list event * (exn + A).

Definition ret {A} (a : A) : M A := ([], inr a).

Definition raise {A} (e : exn) : M A := ([], inl e).

Definition emit (ev : event) : M unit := ([ev], inr tt).

Definition bind {A B} (m : M A) (k : A -> M B) : M B :=
  match m with
  | (t, inl e) => (t, inl e)
  | (t, inr a) => let '(t', r) := k a in ((t ++ t')%list, r)
  end.

(** [try: m  except ...: h]: [h e] is [Some] handler body when a clause
    matches [e], [None] when [e] propagates. *)
Definition try_except {A} (m : M A) (h : exn -> option (M A)) : M A :=
  match m with
  | (t, inl e) =>
      match h e with
      | Some k => let '(t', r) := k in ((t ++ t')%list, r)
      | None => (t, inl e)
      end
  | (t, inr a) => (t, inr a)
  end.

Declare Scope py_scope.
Delimit Scope py_scope with py.
Notation "x <- m ;; k" := (bind m (fun x => k))
  (at level 100, m at next level, right associativity) : py_scope.
Notation "m ;; k" := (bind m (fun _ => k))
  (at level 100, right associativity) : py_scope.
Local Open Scope py_scope.

(** [sys.exit(v)]. *)
Definition sys_exit {A} (v : pyval) : M A := raise (SystemExit v).

(** ** The outside world *)

(** A response: its status code, and what [json.loads] makes of the body
    the server sent, [None] when it raises on it. *)
Record Response := {
  status_code : Z;
  text_json : option Json.json
}.

(** What [requests.get] does: it raises ConnectionError (or one of its
    subclasses), it raises another of its exceptions, or it returns. *)
Inductive get_result :=
| ConnectionFailed (msg : string)       (* requests.exceptions.ConnectionError *)
| RequestFailed (msg : string)          (* InvalidURL, TooManyRedirects, ... *)
| Responded (resp : Response).

Inductive dbus_result :=
| DBusOk
| DBusError (msg : string).             (* dbus.exceptions.DBusException *)

(** What [self.__cfg.read(cfile)] does with a file that exists: it raises
    on a file that is not in the syntax of [configparser]
    (MissingSectionHeaderError, ParsingError, DuplicateSectionError,
    DuplicateOptionError) or in the encoding of the locale
    (UnicodeDecodeError), or it leaves the parser with the sections of the
    file. A file that cannot be opened is skipped: it is read as no section
    at all. *)
Inductive read_result :=
| Malformed (msg : string)
| Parsed (sections : gmap string (gmap string string)).

Record World := {
  (** the interpreter the script runs on *)
  python : Python;
  (** ./tripleo-healthchecks.conf as [read] takes it; [None]: no such file *)
  cfile : option read_result;
  http : string -> get_result;
  system_bus : dbus_result;
  restart_unit : string -> string -> dbus_result
}.

Definition requests_get (w : World) (uri : string) : M Response :=
  emit (HttpGet uri) ;;
  match http w uri with
  | ConnectionFailed msg => raise (ConnectionError msg)
  | RequestFailed msg => raise (RequestException msg)
  | Responded resp => ret resp
  end.

(** The statuses whose body the HTTP client takes as empty, whatever the
    server sent (http.client: 1xx, 204 and 304). *)
Definition bodiless (status : Z) : bool :=
  ((100 <=? status)%Z && (status <? 200)%Z || (status =? 204)%Z || (status =? 304)%Z)%bool.

(** [json.loads(resp.text)] when it returns: the empty text of a bodiless
    response is not a JSON document. *)
Definition body_json (resp : Response) : option Json.json :=
  if bodiless (status_code resp) then None else text_json resp.

Definition json_loads (resp : Response) : M Json.json :=
  match body_json resp with
  | Some j => ret j
  | None => raise JSONDecodeError
  end.

Definition dbus_call (ev : event) (r : dbus_result) : M unit :=
  emit ev ;;
  match r with
  | DBusOk => ret tt
  | DBusError msg => raise (DBusException msg)
  end.

(** ** configparser accessors *)

Module ConfigParser.

Definition has_section (cfg : gmap string (gmap string string)) (section : string) : bool :=
  bool_decide (is_Some (cfg !! section)).

(** *** BasicInterpolation *)

Inductive interpolation_error :=
| BadSyntax                         (* InterpolationSyntaxError *)
| MissingOption (reference : string) (* InterpolationMissingOptionError *)
| TooDeep.                          (* InterpolationDepthError *)

(** Where the scan of a value stands: in plain text, after a "%", in the
    name of a reference "%(name" (kept reversed), or after the ")" that
    closes the name. *)
Inductive scan_state :=
| Text
| Percent
| Name (reversed : string)
| Closed (reversed : string).

Definition MAX_INTERPOLATION_DEPTH : nat := 10.

(** The [while rest:] loop of [_interpolate_some], read character by
    character: "%%" gives "%", "%(name)s" gives the value of the option
    [name] of the section, itself interpolated by [deeper] when it holds a
    "%", and any other use of "%" is an error. The pattern of a reference
    is [%\(([^)]+)\)s]. *)
Fixpoint interpolate_loop (py : Python) (values : gmap string string)
    (deeper : string -> interpolation_error + string)
    (rest : string) (st : scan_state) : interpolation_error + string :=
  match rest, st with
  | EmptyString, Text => inr ""
  | EmptyString, _ => inl BadSyntax
  | String c rest', Text =>
      if Ascii.eqb c "%" then interpolate_loop py values deeper rest' Percent
      else
        match interpolate_loop py values deeper rest' Text with
        | inr s => inr (String c s)
        | inl e => inl e
        end
  | String c rest', Percent =>
      if Ascii.eqb c "%" then
        match interpolate_loop py values deeper rest' Text with
        | inr s => inr (String "%" s)
        | inl e => inl e
        end
      else if Ascii.eqb c "(" then interpolate_loop py values deeper rest' (Name "")
      else inl BadSyntax
  | String c rest', Name reversed =>
      if Ascii.eqb c ")" then
        match reversed with
        | EmptyString => inl BadSyntax
        | _ => interpolate_loop py values deeper rest' (Closed reversed)
        end
      else interpolate_loop py values deeper rest' (Name (String c reversed))
  | String c rest', Closed reversed =>
      if Ascii.eqb c "s" then
        let var := str_lower py (String.rev reversed) in
        match values !! var with
        | None => inl (MissingOption var)
        | Some v =>
            match (if PyStr.contains "%" v then deeper v else inr v) with
            | inl e => inl e
            | inr expansion =>
                match interpolate_loop py values deeper rest' Text with
                | inr s => inr (expansion +:+ s)
                | inl e => inl e
                end
            end
        end
      else inl BadSyntax
  end.

(** [_interpolate_some] at depth [MAX_INTERPOLATION_DEPTH + 1 - depth_left]. *)
Fixpoint interpolate_some (py : Python) (values : gmap string string)
    (depth_left : nat) (rest : string) : interpolation_error + string :=
  match depth_left with
  | O => inl TooDeep
  | S n => interpolate_loop py values (interpolate_some py values n) rest Text
  end.

Definition before_get (py : Python) (values : gmap string string) (value : string)
  : interpolation_error + string :=
  interpolate_some py values MAX_INTERPOLATION_DEPTH value.

Definition interpolation_exn (e : interpolation_error) (opt section : string) : exn :=
  match e with
  | BadSyntax => InterpolationSyntaxError opt section
  | MissingOption reference => InterpolationMissingOptionError opt section reference
  | TooDeep => InterpolationDepthError opt section
  end.

(** [cfg.get(section, opt)] and, with [Some d], [cfg.get(section, opt,
    fallback=d)]: the fallback stands in for a missing section or option;
    a value that is there is interpolated. *)
Definition get (py : Python) (cfg : gmap string (gmap string string))
    (section opt : string) (fallback : option string) : M string :=
  match cfg !! section with
  | None =>
      match fallback with
      | Some d => ret d
      | None => raise (NoSectionError section)
      end
  | Some values =>
      match values !! opt with
      | Some value =>
          match before_get py values value with
          | inr v => ret v
          | inl e => raise (interpolation_exn e opt section)
          end
      | None =>
          match fallback with
          | Some d => ret d
          | None => raise (NoOptionError opt section)
          end
      end
  end.

(** BOOLEAN_STATES. *)
Definition true_words : list string := ["1"; "yes"; "true"; "on"].
Definition false_words : list string := ["0"; "no"; "false"; "off"].

Definition convert_to_boolean (py : Python) (value : string) : M bool :=
  let v := str_lower py value in
  if bool_decide (v ∈ true_words) then ret true
  else if bool_decide (v ∈ false_words) then ret false
  else raise (ValueError value).

(** [cfg.getboolean(section, opt, fallback=d)]: the fallback stands in
    for a missing section or option, not for a value that does not
    interpolate or convert. *)
Definition getboolean (py : Python) (cfg : gmap string (gmap string string))
    (section opt : string) (fallback : bool) : M bool :=
  try_except (v <- get py cfg section opt None ;; convert_to_boolean py v)
    (fun e => match e with
              | NoSectionError _ | NoOptionError _ _ => Some (ret fallback)
              | _ => None
              end).

(** [cfg.getint(section, opt)]. *)
Definition getint (py : Python) (cfg : gmap string (gmap string string))
    (section opt : string) : M Z :=
  v <- get py cfg section opt None ;;
  match PyNum.int_of_str py v with
  | Some n => ret n
  | None => raise (ValueError v)
  end.

End ConfigParser.

(** ** class Healthcheck *)

Record Args := {
  service : string;
  debug_flag : bool
}.

Record Healthcheck := {
  srv : string;
  debug : bool;
  cfg : gmap string (gmap string string);
  logger : string                        (* the logger's name *)
}.

(** [__init__]. *)
Definition init (parsed_args : Args) : Healthcheck :=
  let srv := fst (OsPath.splitext (service parsed_args)) in
  {| srv := srv;
     debug := debug_flag parsed_args;
     cfg := ∅;
     logger := "healthcheck." +:+ srv |}.

(** [self.logger.debug/info/critical]: the root level is DEBUG under
    [--debug] and INFO otherwise, so a DEBUG record is dropped without it. *)
Definition log (self : Healthcheck) (lvl : level) (msg : string) : M unit :=
  match lvl with
  | DEBUG => if debug self then emit (Log DEBUG msg) else ret tt
  | _ => emit (Log lvl msg)
  end.

Definition cfile_path : string := "./tripleo-healthchecks.conf".

(** [load_config]: returns the object with its configuration read. *)
Definition load_config (w : World) (self : Healthcheck) : M Healthcheck :=
  self <- match cfile w with
          | Some (Parsed sections) =>
              ret {| srv := srv self; debug := debug self;
                     cfg := sections; logger := logger self |}
          | Some (Malformed msg) => raise (ParsingError msg)
          | None =>
              raise (FileNotFoundError ("Configuration file not found at " +:+ cfile_path))
          end ;;
  if negb (ConfigParser.has_section (cfg self) (srv self)) then
    raise (LookupError ("No configuration found for " +:+ srv self))
  else ret self.

(** [__restart_service]. *)
Definition restart_service (w : World) (self : Healthcheck) : M unit :=
  dbus_call SystemBus (system_bus w) ;;
  log self DEBUG ("Trying to request restart on " +:+ srv self +:+ " service") ;;
  try_except
    (let unit := srv self +:+ ".service" in
     dbus_call (RestartUnit unit "fail") (restart_unit w unit "fail"))
    (fun e => match e with
              | DBusException msg => Some (log self CRITICAL msg ;; sys_exit (PyInt 1))
              | _ => None
              end) ;;
  log self INFO ("Successfuly requested restart on " +:+ srv self +:+ " service").

(** Lines 80-83 of [run_check]: the [on_failure_classes] local. *)
Definition on_failure_classes (w : World) (self : Healthcheck) : M (list string) :=
  on_failure_classes <-
    ConfigParser.get (python w) (cfg self) (srv self) "on_failure_classes" (Some "") ;;
  ret (PyStr.split on_failure_classes ",").

(** Lines 64-71 of [run_check]: the [proto] and [uri] locals. *)
Definition target_uri (w : World) (self : Healthcheck) : M string :=
  tls <- ConfigParser.getboolean (python w) (cfg self) (srv self) "tls" false ;;
  let proto := if tls : bool then "s" else "" in
  host <- ConfigParser.get (python w) (cfg self) (srv self) "host" None ;;
  port <- ConfigParser.getint (python w) (cfg self) (srv self) "port" ;;
  endpoint <- ConfigParser.get (python w) (cfg self) (srv self) "endpoint" None ;;
  ret ("http" +:+ proto +:+ "://" +:+ host +:+ ":" +:+ PyNum.int_repr port +:+ endpoint).

(** [resp.status_code in [200, 204]]. *)
Definition healthy_status (resp : Response) : bool :=
  bool_decide (status_code resp ∈ [200; 204]).

(** [run_check]. *)
Definition run_check (w : World) (self : Healthcheck) : M pyval :=
  uri <- target_uri w self ;;
  log self DEBUG ("Running check against " +:+ uri) ;;
  resp <- try_except (resp <- requests_get w uri ;; ret (Some resp))
            (fun e => match e with
                      | ConnectionError msg => Some (log self CRITICAL msg ;; ret None)
                      | _ => None
                      end) ;;
  match resp with
  | None => ret (PyInt 1)
  | Some resp =>
      on_failure_classes <- on_failure_classes w self ;;
      status <- json_loads resp ;;
      (* oslo.middleware returns either 200 or 204 in case of healthy, else
         503. We can therefore use that status code. *)
      let healthy := healthy_status resp in
      log self INFO (Json.dumps status) ;;  (* ensure we get a one-liner *)
      failure_action <-
        ConfigParser.get (python w) (cfg self) (srv self) "failure_action" (Some "") ;;
      (if negb healthy && String.eqb failure_action "restart"
       then restart_service w self else ret tt) ;;
      ret (PyBool (negb healthy))
  end.

(** The [__main__] block from line 127 on: [args] is the namespace
    [parse_args] returned. *)
Definition main (w : World) (args : Args) : M unit :=
  let check := init args in
  log check DEBUG ("Loading healthcheck for " +:+ service args) ;;
  check <- try_except (load_config w check)
             (fun e => match e with
                       | FileNotFoundError msg => Some (log check CRITICAL msg ;; sys_exit (PyInt 2))
                       | LookupError msg => Some (log check CRITICAL msg ;; sys_exit (PyInt 2))
                       | _ => None
                       end) ;;
  code <- run_check w check ;;
  sys_exit code.

(** The exit status the interpreter gives the process: the low byte of an
    integer passed to [sys.exit] ([True] is 1 and [False] 0), and 1 when an
    exception other than [SystemExit] reaches the top. *)
Definition exit_status {A} (r : exn + A) : Z :=
  match r with
  | inr _ => 0
  | inl (SystemExit (PyInt n)) => Z.land n 255
  | inl (SystemExit (PyBool b)) => if b then 1 else 0
  | inl _ => 1
  end.

Definition trace (w : World) (args : Args) : list event := fst (main w args).

Definition exit_code (w : World) (args : Args) : Z := exit_status (snd (main w args)).

(** ** Vocabulary for the statements *)

(** The object [load_config] returns when it returns: [init args] with the
    sections read. *)
Definition loaded_object (args : Args) (sections : gmap string (gmap string string))
  : Healthcheck :=
  {| srv := srv (init args); debug := debug_flag args;
     cfg := sections; logger := logger (init args) |}.

(** The object [run_check] is called on: [Some] when [load_config] returned. *)
Definition loaded (w : World) (args : Args) : option Healthcheck :=
  match snd (load_config w (init args)) with
  | inr self => Some self
  | inl _ => None
  end.

(** The URI the run sends its GET to: [Some] when the configuration loads
    and the settings give a URI. *)
Definition probe_uri (w : World) (args : Args) : option string :=
  match loaded w args with
  | Some self =>
      match snd (target_uri w self) with
      | inr uri => Some uri
      | inl _ => None
      end
  | None => None
  end.

(** The answer to the GET of the run. *)
Definition probe (w : World) (args : Args) : option get_result :=
  http w <$> probe_uri w args.

(** The list [run_check] reads as [on_failure_classes]: [Some] when the
    configuration loads and the setting is read without error. *)
Definition failure_classes (w : World) (args : Args) : option (list string) :=
  match loaded w args with
  | Some self =>
      match snd (on_failure_classes w self) with
      | inr classes => Some classes
      | inl _ => None
      end
  | None => None
  end.

(** The value [run_check] reads as [failure_action]: [Some] when the
    configuration loads and the setting is read without error. *)
Definition failure_action (w : World) (args : Args) : option string :=
  match loaded w args with
  | Some self =>
      match snd (ConfigParser.get (python w) (cfg self) (srv self)
                   "failure_action" (Some "")) with
      | inr v => Some v
      | inl _ => None
      end
  | None => None
  end.

(** The DEBUG record of [msg], present under [--debug] only. *)
Definition debug_records (d : bool) (msg : string) : list event :=
  if d then [Log DEBUG msg] else [].

Definition is_restart_unit (ev : event) : bool :=
  match ev with
  | RestartUnit _ _ => true
  | _ => false
  end.

Definition is_http_get (ev : event) : bool :=
  match ev with
  | HttpGet _ => true
  | _ => false
  end.

#[global] Instance level_eq_dec : EqDecision level.
Proof. solve_decision. Defined.

#[global] Instance event_eq_dec : EqDecision event.
Proof. solve_decision. Defined.

(** ** The paths of a run

    Every run follows one of fourteen paths; [run_spec w args r] lists them
    with the condition on the world that selects each and the trace and
    result it ends with. *)

Definition loading_records (args : Args) : list event :=
  debug_records (debug_flag args) ("Loading healthcheck for " +:+ service args).

Definition checking_records (args : Args) (uri : string) : list event :=
  debug_records (debug_flag args) ("Running check against " +:+ uri).

Definition restarting_records (args : Args) : list event :=
  debug_records (debug_flag args)
    ("Trying to request restart on " +:+ srv (init args) +:+ " service").

Definition unit_name (args : Args) : string := srv (init args) +:+ ".service".

(** The trace of a run up to and including the payload record. *)
Definition probed_trace (args : Args) (uri : string) (status : Json.json) : list event :=
  (loading_records args ++ checking_records args uri ++
   [HttpGet uri; Log INFO (Json.dumps status)])%list.

(** The exceptions the configparser accessors raise. *)
Definition settings_error (e : exn) : bool :=
  match e with
  | NoSectionError _ | NoOptionError _ _ | ValueError _
  | InterpolationSyntaxError _ _ | InterpolationMissingOptionError _ _ _
  | InterpolationDepthError _ _ => true
  | _ => false
  end.

Inductive run_spec (w : World) (args : Args) : M unit -> Prop :=
| run_no_file :
    cfile w = None ->
    run_spec w args
      ((loading_records args ++
        [Log CRITICAL ("Configuration file not found at " +:+ cfile_path)])%list,
       inl (SystemExit (PyInt 2)))
| run_malformed msg :
    cfile w = Some (Malformed msg) ->
    run_spec w args (loading_records args, inl (ParsingError msg))
| run_no_section sections :
    cfile w = Some (Parsed sections) ->
    sections !! srv (init args) = None ->
    run_spec w args
      ((loading_records args ++
        [Log CRITICAL ("No configuration found for " +:+ srv (init args))])%list,
       inl (SystemExit (PyInt 2)))
| run_bad_settings self e :
    loaded w args = Some self ->
    snd (target_uri w self) = inl e ->
    settings_error e = true ->
    run_spec w args (loading_records args, inl e)
| run_connection_failed uri msg :
    probe_uri w args = Some uri ->
    http w uri = ConnectionFailed msg ->
    run_spec w args
      ((loading_records args ++ checking_records args uri ++
        [HttpGet uri; Log CRITICAL msg])%list,
       inl (SystemExit (PyInt 1)))
| run_request_failed uri msg :
    probe_uri w args = Some uri ->
    http w uri = RequestFailed msg ->
    run_spec w args
      ((loading_records args ++ checking_records args uri ++ [HttpGet uri])%list,
       inl (RequestException msg))
| run_bad_classes self uri resp e :
    loaded w args = Some self ->
    probe_uri w args = Some uri ->
    http w uri = Responded resp ->
    snd (on_failure_classes w self) = inl e ->
    settings_error e = true ->
    run_spec w args
      ((loading_records args ++ checking_records args uri ++ [HttpGet uri])%list,
       inl e)
| run_bad_json uri resp classes :
    probe_uri w args = Some uri ->
    http w uri = Responded resp ->
    failure_classes w args = Some classes ->
    body_json resp = None ->
    run_spec w args
      ((loading_records args ++ checking_records args uri ++ [HttpGet uri])%list,
       inl JSONDecodeError)
| run_bad_action self uri resp classes status e :
    loaded w args = Some self ->
    probe_uri w args = Some uri ->
    http w uri = Responded resp ->
    failure_classes w args = Some classes ->
    body_json resp = Some status ->
    snd (ConfigParser.get (python w) (cfg self) (srv self) "failure_action" (Some ""))
      = inl e ->
    settings_error e = true ->
    run_spec w args (probed_trace args uri status, inl e)
| run_healthy uri resp classes status action :
    probe_uri w args = Some uri ->
    http w uri = Responded resp ->
    failure_classes w args = Some classes ->
    body_json resp = Some status ->
    failure_action w args = Some action ->
    healthy_status resp = true ->
    run_spec w args (probed_trace args uri status, inl (SystemExit (PyBool false)))
| run_unhealthy uri resp classes status action :
    probe_uri w args = Some uri ->
    http w uri = Responded resp ->
    failure_classes w args = Some classes ->
    body_json resp = Some status ->
    healthy_status resp = false ->
    failure_action w args = Some action ->
    action <> "restart" ->
    run_spec w args (probed_trace args uri status, inl (SystemExit (PyBool true)))
| run_restart_no_bus uri resp classes status msg :
    probe_uri w args = Some uri ->
    http w uri = Responded resp ->
    failure_classes w args = Some classes ->
    body_json resp = Some status ->
    healthy_status resp = false ->
    failure_action w args = Some "restart" ->
    system_bus w = DBusError msg ->
    run_spec w args
      ((probed_trace args uri status ++ [SystemBus])%list, inl (DBusException msg))
| run_restart_failed uri resp classes status msg :
    probe_uri w args = Some uri ->
    http w uri = Responded resp ->
    failure_classes w args = Some classes ->
    body_json resp = Some status ->
    healthy_status resp = false ->
    failure_action w args = Some "restart" ->
    system_bus w = DBusOk ->
    restart_unit w (unit_name args) "fail" = DBusError msg ->
    run_spec w args
      ((probed_trace args uri status ++ [SystemBus] ++ restarting_records args ++
        [RestartUnit (unit_name args) "fail"; Log CRITICAL msg])%list,
       inl (SystemExit (PyInt 1)))
| run_restart_ok uri resp classes status :
    probe_uri w args = Some uri ->
    http w uri = Responded resp ->
    failure_classes w args = Some classes ->
    body_json resp = Some status ->
    healthy_status resp = false ->
    failure_action w args = Some "restart" ->
    system_bus w = DBusOk ->
    restart_unit w (unit_name args) "fail" = DBusOk ->
    run_spec w args
      ((probed_trace args uri status ++ [SystemBus] ++ restarting_records args ++
        [RestartUnit (unit_name args) "fail";
         Log INFO ("Successfuly requested restart on " +:+ srv (init args) +:+ " service")])%list,
       inl (SystemExit (PyBool true))).

(** The run reached the health decision of line 88: the GET was answered,
    [on_failure_classes] was read, the body parsed, and the status code was
    (or was not) one of 200 and 204. *)
Definition decided (w : World) (args : Args) (healthy : bool) : Prop :=
  exists resp payload,
    probe w args = Some (Responded resp) /\
    is_Some (failure_classes w args) /\
    body_json resp = Some payload /\
    healthy_status resp = healthy.

(** The calls to the service manager in a trace. *)
Definition is_bus_call (ev : event) : bool :=
  match ev with
  | SystemBus | RestartUnit _ _ => true
  | _ => false
  end.

(** The INFO records of a trace. *)
Definition is_info (ev : event) : bool :=
  match ev with
  | Log INFO _ => true
  | _ => false
  end.

(** The DEBUG records of a trace. *)
Definition is_debug (ev : event) : bool :=
  match ev with
  | Log DEBUG _ => true
  | _ => false
  end.

(** The CRITICAL records of a trace. *)
Definition is_critical (ev : event) : bool :=
  match ev with
  | Log CRITICAL _ => true
  | _ => false
  end.

(** The command line [args] with [--debug] given ([d = true]) or not. *)
Definition with_debug (args : Args) (d : bool) : Args :=
  {| service := service args; debug_flag := d |}.

(** The world [w] with its configuration file holding [sections]. *)
Definition with_sections (w : World) (sections : gmap string (gmap string string))
  : World :=
  {| python := python w;
     cfile := Some (Parsed sections);
     http := http w;
     system_bus := system_bus w;
     restart_unit := restart_unit w |}.

(** [values'] holds what [values] holds, except perhaps under [key]. *)
Definition agree_except (key : string) (values values' : gmap string string) : Prop :=
  forall k, k <> key -> values' !! k = values !! k.

(** Every option other than [key] reads the same in [c'] as in [c]. *)
Definition read_alike (py : Python) (key section : string)
    (c c' : gmap string (gmap string string)) : Prop :=
  forall opt fallback, opt <> key ->
    ConfigParser.get py c' section opt fallback = ConfigParser.get py c section opt fallback.

(** ** Sample runs *)

Module Sample.

Fixpoint code_points (s : string) : list N :=
  match s with
  | EmptyString => []
  | String a s' => N_of_ascii a :: code_points s'
  end.

(** An interpreter with the default limit on digits; the samples are
    ASCII, so its Unicode tables are not consulted. *)
Definition cpython : Python :=
  {| lower_nonascii := fun s => s;
     decimal_nonascii := fun s => s;
     int_max_str_digits := 4300 |}.

(** The section of the example in the specification. *)
Definition nova_api : gmap string string :=
  list_to_map [("host", "127.0.0.1"); ("port", "8989");
               ("endpoint", "/healthcheck"); ("tls", "false")].

Definition nova_api_restart : gmap string string :=
  <["failure_action" := "restart"]> nova_api.

(** The same section asking for TLS, with the port written loosely. *)
Definition nova_api_tls : gmap string string :=
  list_to_map [("host", "127.0.0.1"); ("port", "+8_989");
               ("endpoint", "/healthcheck"); ("tls", "Yes")].

(** Settings with a percent sign that is not an interpolation. *)
Definition nova_api_percent_action : gmap string string :=
  list_to_map [("host", "127.0.0.1"); ("port", "8989");
               ("endpoint", "/healthcheck"); ("tls", "false");
               ("failure_action", "100%")].

Definition nova_api_percent_classes : gmap string string :=
  list_to_map [("host", "127.0.0.1"); ("port", "8989");
               ("endpoint", "/healthcheck"); ("tls", "false");
               ("failure_action", "restart"); ("on_failure_classes", "50%")].

(** [failure_action] taking its value from [on_failure_classes]. *)
Definition nova_api_action_from_classes (classes : string) : gmap string string :=
  list_to_map [("host", "127.0.0.1"); ("port", "8989");
               ("endpoint", "/healthcheck"); ("tls", "false");
               ("failure_action", "%(on_failure_classes)s");
               ("on_failure_classes", classes)].

Definition payload : Json.json :=
  Json.JObject [(code_points "detailed", Json.JBool false);
                (code_points "healthy", Json.JBool true)].

(** [json.dumps] of [payload]. *)
Definition payload_line : string :=
  "{" +:+ Json.quote +:+ "detailed" +:+ Json.quote +:+ ": false, "
      +:+ Json.quote +:+ "healthy" +:+ Json.quote +:+ ": true}".

Definition response (status : Z) : get_result :=
  Responded {| status_code := status; text_json := Some payload |}.

(** A response whose body is not JSON. *)
Definition garbled : get_result :=
  Responded {| status_code := 200; text_json := None |}.

Definition world (values : gmap string string) (answer : get_result)
    (restart : dbus_result) : World :=
  {| python := cpython;
     cfile := Some (Parsed {[ "nova-api" := values ]});
     http := fun _ => answer;
     system_bus := DBusOk;
     restart_unit := fun _ _ => restart |}.

Definition no_file : World :=
  {| python := cpython;
     cfile := None;
     http := fun _ => response 200;
     system_bus := DBusOk;
     restart_unit := fun _ _ => DBusOk |}.

(** A world whose configuration file starts without a section header. *)
Definition malformed : World :=
  {| python := cpython;
     cfile := Some (Malformed "File contains no section headers.");
     http := fun _ => response 200;
     system_bus := DBusOk;
     restart_unit := fun _ _ => DBusOk |}.

(** A world whose system bus cannot be opened. *)
Definition no_bus : World :=
  {| python := cpython;
     cfile := Some (Parsed {[ "nova-api" := nova_api_restart ]});
     http := fun _ => response 503;
     system_bus := DBusError "Failed to connect to socket";
     restart_unit := fun _ _ => DBusOk |}.

Definition args : Args := {| service := "nova-api.service"; debug_flag := false |}.

Definition uri : string := "http://127.0.0.1:8989/healthcheck".

End Sample.

(** ** Printable text *)

(** A character between the space and the tilde. *)
Definition printable_char (c : ascii) : bool :=
  let n := nat_of_ascii c in (Nat.leb 32 n && Nat.leb n 126)%bool.

(** A string of such characters: in particular one without a line break. *)
Fixpoint printable (s : string) : bool :=
  match s with
  | EmptyString => true
  | String c s' => printable_char c && printable s'
  end.

Definition first_char (s : string) : option ascii :=
  match s with
  | EmptyString => None
  | String c _ => Some c
  end.

Definition newline : ascii := ascii_of_nat 10.

(** A decimal digit or the minus sign. *)
Definition is_digit_or_sign (c : ascii) : Prop :=
  (48 <= nat_of_ascii c <= 57)%nat \/ c = "-"%char.

(** Every character of [s] is a dot. *)
Fixpoint all_dots (s : string) : bool :=
  match s with
  | EmptyString => true
  | String a s' => Ascii.eqb a OsPath.extsep && all_dots s'
  end.

(** The service identity in the words of the specification: the argument
    with its final dot-separated extension removed, the argument itself when
    it contains no dot. *)
Definition strip_final_extension (arg : string) : string :=
  let dotIndex := PyStr.rfind arg OsPath.extsep in
  if (dotIndex <? 0)%Z then arg else PyStr.take (Z.to_nat dotIndex) arg.

(** No character of [s] is white space. *)
Fixpoint no_space (s : string) : bool :=
  match s with
  | EmptyString => true
  | String a s' => negb (PyNum.is_space a) && no_space s'
  end.

(** * Properties *)

#[local] Arguments loading_records : simpl never.
#[local] Arguments checking_records : simpl never.
#[local] Arguments restarting_records : simpl never.
#[local] Arguments unit_name : simpl never.
#[local] Arguments debug_records : simpl never.
#[local] Arguments init : simpl never.


(** ** The computation monad *)

Lemma bind_pure {A B} (m : M A) (k : A -> M B) :
  fst m = [] ->
  bind m k = match snd m with inl e => ([], inl e) | inr a => k a end.
Proof.
  destruct m as [t [e|a]]; simpl; intros ->; [done|].
  by destruct (k a).
Qed.

Lemma bind_emit {B} (ev : event) (k : unit -> M B) :
  bind (emit ev) k = (ev :: fst (k tt), snd (k tt)).
Proof. unfold bind, emit. by destruct (k tt). Qed.

Lemma bind_cons {A B} t (a : A) (k : A -> M B) :
  bind (t, inr a) k = ((t ++ fst (k a))%list, snd (k a)).
Proof. unfold bind. by destruct (k a). Qed.

Lemma log_debug self msg :
  log self DEBUG msg = (debug_records (debug self) msg, inr tt).
Proof. unfold log, debug_records. by destruct (debug self). Qed.

(** ** configparser accessors leave no trace *)

Lemma get_pure py c section opt fallback :
  fst (ConfigParser.get py c section opt fallback) = [].
Proof. unfold ConfigParser.get. by repeat case_match. Qed.

Lemma get_error py c section opt fallback e :
  snd (ConfigParser.get py c section opt fallback) = inl e -> settings_error e = true.
Proof.
  unfold ConfigParser.get, ConfigParser.interpolation_exn.
  repeat case_match; simpl; intros [= <-]; done.
Qed.

Lemma convert_to_boolean_pure py v : fst (ConfigParser.convert_to_boolean py v) = [].
Proof. unfold ConfigParser.convert_to_boolean. by repeat case_match. Qed.

Lemma convert_to_boolean_error py v e :
  snd (ConfigParser.convert_to_boolean py v) = inl e -> e = ValueError v.
Proof.
  unfold ConfigParser.convert_to_boolean. repeat case_match; simpl; by intros [= <-].
Qed.

(** [getboolean] in terms of [get]. *)
Lemma getboolean_cases py c section opt fallback :
  ConfigParser.getboolean py c section opt fallback =
  match snd (ConfigParser.get py c section opt None) with
  | inr v => ([], snd (ConfigParser.convert_to_boolean py v))
  | inl (NoSectionError _) | inl (NoOptionError _ _) => ([], inr fallback)
  | inl e => ([], inl e)
  end.
Proof.
  unfold ConfigParser.getboolean.
  rewrite bind_pure by apply get_pure.
  destruct (snd (ConfigParser.get py c section opt None)) as [e|v].
  - by destruct e.
  - pose proof (convert_to_boolean_pure py v) as Hpure.
    pose proof (convert_to_boolean_error py v) as He.
    destruct (ConfigParser.convert_to_boolean py v) as [t [e|b]];
      simpl in Hpure; subst t; [|done].
    by rewrite (He e eq_refl).
Qed.

(** [getint] in terms of [get]. *)
Lemma getint_cases py c section opt :
  ConfigParser.getint py c section opt =
  match snd (ConfigParser.get py c section opt None) with
  | inr v =>
      match PyNum.int_of_str py v with
      | Some n => ([], inr n)
      | None => ([], inl (ValueError v))
      end
  | inl e => ([], inl e)
  end.
Proof.
  unfold ConfigParser.getint. rewrite bind_pure by apply get_pure.
  destruct (snd (ConfigParser.get py c section opt None)); [done|].
  by destruct (PyNum.int_of_str py _).
Qed.

Lemma getboolean_pure py c section opt fallback :
  fst (ConfigParser.getboolean py c section opt fallback) = [].
Proof. rewrite getboolean_cases. by repeat case_match. Qed.

Lemma getint_pure py c section opt :
  fst (ConfigParser.getint py c section opt) = [].
Proof. rewrite getint_cases. by repeat case_match. Qed.

Lemma getboolean_error py c section opt fallback e :
  snd (ConfigParser.getboolean py c section opt fallback) = inl e ->
  settings_error e = true.
Proof.
  rewrite getboolean_cases.
  destruct (snd (ConfigParser.get py c section opt None)) as [e'|v] eqn:Hget.
  - pose proof (get_error _ _ _ _ _ _ Hget). destruct e'; simpl; by intros [= <-].
  - simpl. by intros ->%convert_to_boolean_error.
Qed.

Lemma getint_error py c section opt e :
  snd (ConfigParser.getint py c section opt) = inl e -> settings_error e = true.
Proof.
  rewrite getint_cases.
  destruct (snd (ConfigParser.get py c section opt None)) as [e'|v] eqn:Hget.
  - simpl. intros [= <-]. by eapply get_error.
  - destruct (PyNum.int_of_str py v); simpl; by intros [= <-].
Qed.

Lemma target_uri_pure w self : fst (target_uri w self) = [].
Proof.
  unfold target_uri.
  rewrite bind_pure by apply getboolean_pure. case_match; [done|].
  rewrite bind_pure by apply get_pure. case_match; [done|].
  rewrite bind_pure by apply getint_pure. case_match; [done|].
  rewrite bind_pure by apply get_pure. by case_match.
Qed.

Lemma target_uri_error w self e :
  snd (target_uri w self) = inl e -> settings_error e = true.
Proof.
  unfold target_uri.
  rewrite bind_pure by apply getboolean_pure.
  destruct (snd (ConfigParser.getboolean _ _ _ _ _)) eqn:H1;
    [simpl; intros [= <-]; by eapply getboolean_error|].
  rewrite bind_pure by apply get_pure.
  destruct (snd (ConfigParser.get _ _ _ "host" _)) eqn:H2;
    [simpl; intros [= <-]; by eapply get_error|].
  rewrite bind_pure by apply getint_pure.
  destruct (snd (ConfigParser.getint _ _ _ _)) eqn:H3;
    [simpl; intros [= <-]; by eapply getint_error|].
  rewrite bind_pure by apply get_pure.
  destruct (snd (ConfigParser.get _ _ _ "endpoint" _)) eqn:H4;
    [simpl; intros [= <-]; by eapply get_error|].
  done.
Qed.

Lemma on_failure_classes_cases w self :
  on_failure_classes w self =
  match snd (ConfigParser.get (python w) (cfg self) (srv self)
               "on_failure_classes" (Some "")) with
  | inr text => ([], inr (PyStr.split text ","))
  | inl e => ([], inl e)
  end.
Proof.
  unfold on_failure_classes. rewrite bind_pure by apply get_pure. by case_match.
Qed.

Lemma on_failure_classes_pure w self : fst (on_failure_classes w self) = [].
Proof. rewrite on_failure_classes_cases. by case_match. Qed.

Lemma on_failure_classes_error w self e :
  snd (on_failure_classes w self) = inl e -> settings_error e = true.
Proof.
  rewrite on_failure_classes_cases.
  destruct (snd (ConfigParser.get _ _ _ _ _)) eqn:Hget; simpl; [|done].
  intros [= <-]. by eapply get_error.
Qed.

(** ** [load_config] *)

Lemma load_config_cases w args :
  load_config w (init args) =
  match cfile w with
  | None => ([], inl (FileNotFoundError ("Configuration file not found at " +:+ cfile_path)))
  | Some (Malformed msg) => ([], inl (ParsingError msg))
  | Some (Parsed sections) =>
      match sections !! srv (init args) with
      | None => ([], inl (LookupError ("No configuration found for " +:+ srv (init args))))
      | Some _ => ([], inr (loaded_object args sections))
      end
  end.
Proof.
  unfold load_config, ConfigParser.has_section.
  destruct (cfile w) as [[msg|sections]|]; [done| |done].
  cbn. destruct (sections !! _) eqn:E.
  - by rewrite bool_decide_eq_true_2 by eauto.
  - by rewrite bool_decide_eq_false_2 by (intros [? ?]; done).
Qed.

Lemma loaded_Some w args self :
  loaded w args = Some self <->
  exists sections,
    cfile w = Some (Parsed sections) /\ is_Some (sections !! srv (init args)) /\
    self = loaded_object args sections.
Proof.
  unfold loaded. rewrite load_config_cases. split.
  - destruct (cfile w) as [[msg|sections]|]; [done| |done].
    destruct (sections !! srv (init args)) eqn:E; [|done].
    simpl. intros [= <-]. exists sections. eauto.
  - intros (sections & -> & [v ->] & ->). done.
Qed.

Lemma loaded_srv w args self : loaded w args = Some self -> srv self = srv (init args).
Proof. rewrite loaded_Some. by intros (? & _ & _ & ->). Qed.

Lemma loaded_debug w args self : loaded w args = Some self -> debug self = debug_flag args.
Proof. rewrite loaded_Some. by intros (? & _ & _ & ->). Qed.

(** ** [__restart_service] *)

Lemma restart_service_cases w self :
  restart_service w self =
  match system_bus w with
  | DBusError msg => ([SystemBus], inl (DBusException msg))
  | DBusOk =>
      let t := (SystemBus ::
                debug_records (debug self)
                  ("Trying to request restart on " +:+ srv self +:+ " service") ++
                [RestartUnit (srv self +:+ ".service") "fail"])%list in
      match restart_unit w (srv self +:+ ".service") "fail" with
      | DBusError msg => ((t ++ [Log CRITICAL msg])%list, inl (SystemExit (PyInt 1)))
      | DBusOk =>
          ((t ++ [Log INFO ("Successfuly requested restart on " +:+ srv self +:+ " service")])%list,
           inr tt)
      end
  end.
Proof.
  unfold restart_service, dbus_call.
  destruct (system_bus w) as [|msg]; [|done].
  rewrite log_debug.
  destruct (restart_unit w (srv self +:+ ".service") "fail") as [|msg]; cbn;
    by rewrite <- !app_assoc.
Qed.

(** ** [run_check] after the GET *)

Lemma run_check_cases w self :
  run_check w self =
  match target_uri w self with
  | (_, inl e) => ([], inl e)
  | (_, inr uri) =>
      let t := (debug_records (debug self) ("Running check against " +:+ uri) ++
                [HttpGet uri])%list in
      match http w uri with
      | ConnectionFailed msg => ((t ++ [Log CRITICAL msg])%list, inr (PyInt 1))
      | RequestFailed msg => (t, inl (RequestException msg))
      | Responded resp =>
          match snd (on_failure_classes w self) with
          | inl e => (t, inl e)
          | inr _ =>
              match body_json resp with
              | None => (t, inl JSONDecodeError)
              | Some status =>
                  let t := (t ++ [Log INFO (Json.dumps status)])%list in
                  match snd (ConfigParser.get (python w) (cfg self) (srv self)
                               "failure_action" (Some "")) with
                  | inr action =>
                      if negb (healthy_status resp) && String.eqb action "restart" then
                        match restart_service w self with
                        | (t', inl e) => ((t ++ t')%list, inl e)
                        | (t', inr _) => ((t ++ t')%list, inr (PyBool true))
                        end
                      else (t, inr (PyBool (negb (healthy_status resp))))
                  | inl e => (t, inl e)
                  end
              end
          end
      end
  end.
Proof.
  unfold run_check.
  rewrite bind_pure by apply target_uri_pure.
  destruct (target_uri w self) as [t0 [e|uri]]; [done|]. cbn [snd].
  rewrite log_debug, bind_cons. cbn [fst snd].
  unfold requests_get. rewrite bind_emit.
  destruct (http w uri) as [msg|msg|resp]; cbn.
  { by rewrite <- !app_assoc. }
  { by rewrite ?app_nil_r. }
  pose proof (on_failure_classes_pure w self) as Hpc.
  destruct (on_failure_classes w self) as [tc [e|classes]]; simpl in Hpc; subst tc; cbn.
  { by rewrite ?app_nil_r. }
  pose proof (get_pure (python w) (cfg self) (srv self) "failure_action" (Some "")) as Hpa.
  destruct (ConfigParser.get (python w) (cfg self) (srv self) "failure_action" (Some ""))
    as [ta [e|action]]; simpl in Hpa; subst ta;
    unfold json_loads; destruct (body_json resp) as [status|]; cbn;
    try (by rewrite ?app_nil_r, <- ?app_assoc).
  destruct (healthy_status resp); cbn.
  { by rewrite <- !app_assoc. }
  destruct (String.eqb action "restart"); cbn.
  2:{ by rewrite <- !app_assoc. }
  destruct (restart_service w self) as [t' [e|[]]]; cbn;
    by rewrite ?app_nil_r, <- ?app_assoc.
Qed.

(** ** Every run follows one of the paths *)

Lemma probe_uri_Some w args uri :
  probe_uri w args = Some uri <->
  exists self, loaded w args = Some self /\ snd (target_uri w self) = inr uri.
Proof.
  unfold probe_uri. split.
  - destruct (loaded w args) as [self|]; [|done].
    destruct (snd (target_uri w self)) eqn:E; [done|].
    intros [= ->]. eauto.
  - intros (self & -> & ->). done.
Qed.

Lemma failure_classes_loaded w args self classes :
  loaded w args = Some self ->
  snd (on_failure_classes w self) = inr classes ->
  failure_classes w args = Some classes.
Proof. unfold failure_classes. by intros -> ->. Qed.

Lemma failure_action_loaded w args self action :
  loaded w args = Some self ->
  snd (ConfigParser.get (python w) (cfg self) (srv self) "failure_action" (Some ""))
    = inr action ->
  failure_action w args = Some action.
Proof. unfold failure_action. by intros -> ->. Qed.

Lemma run_spec_trace w args t t' r :
  run_spec w args (t, r) -> t = t' -> run_spec w args (t', r).
Proof. by intros H <-. Qed.

Ltac same_trace :=
  unfold probed_trace, loading_records, checking_records, restarting_records,
    unit_name, debug_records, loaded_object;
  simpl; destruct (debug_flag _); reflexivity.

Ltac follows path := eapply run_spec_trace; [by eapply path | same_trace].

Theorem main_spec w args : run_spec w args (main w args).
Proof.
  unfold main. rewrite log_debug, bind_cons. cbn [fst snd].
  pose proof (load_config_cases w args) as Hload.
  destruct (cfile w) as [[msg|sections]|] eqn:Hfile.
  3:{ rewrite Hload. follows run_no_file. }
  { rewrite Hload. follows run_malformed. }
  destruct (sections !! srv (init args)) as [values|] eqn:Hsec.
  2:{ rewrite Hload. follows run_no_section. }
  rewrite Hload. cbn [try_except bind fst snd].
  set (self := loaded_object args sections).
  assert (Hself : loaded w args = Some self).
  { apply loaded_Some. exists sections. eauto. }
  rewrite run_check_cases.
  pose proof (target_uri_pure w self) as Hpure.
  destruct (target_uri w self) as [tu [e|uri]] eqn:Huri; simpl in Hpure; subst tu.
  { assert (He : snd (target_uri w self) = inl e) by by rewrite Huri.
    eapply run_spec_trace;
      [by eapply run_bad_settings; [| |apply (target_uri_error w self)]|same_trace]. }
  assert (Hprobe : probe_uri w args = Some uri).
  { apply probe_uri_Some. exists self. by rewrite Huri. }
  cbn zeta.
  destruct (http w uri) as [msg|msg|resp] eqn:Hhttp.
  { follows run_connection_failed. }
  { follows run_request_failed. }
  destruct (snd (on_failure_classes w self)) as [e|classes] eqn:Hclasses.
  { eapply run_spec_trace;
      [by eapply run_bad_classes; [| | | |apply (on_failure_classes_error w self)]
      |same_trace]. }
  pose proof (failure_classes_loaded _ _ _ _ Hself Hclasses) as Hfc.
  destruct (body_json resp) as [status|] eqn:Hjson.
  2:{ follows run_bad_json. }
  destruct (snd (ConfigParser.get (python w) (cfg self) (srv self)
                   "failure_action" (Some ""))) as [e|action] eqn:Haction.
  { eapply run_spec_trace;
      [by eapply run_bad_action; [| | | | | |eapply get_error]|same_trace]. }
  pose proof (failure_action_loaded _ _ _ _ Hself Haction) as Hfa.
  destruct (healthy_status resp) eqn:Hhealthy.
  { follows run_healthy. }
  destruct (String.eqb_spec action "restart") as [->|Hne]; cbn [negb andb].
  2:{ follows run_unhealthy. }
  rewrite restart_service_cases.
  destruct (system_bus w) as [|msg] eqn:Hbus.
  2:{ follows run_restart_no_bus. }
  cbn zeta.
  destruct (restart_unit w (srv self +:+ ".service") "fail") as [|msg] eqn:Hrestart.
  - follows run_restart_ok.
  - follows run_restart_failed.
Qed.

(** ** What the world decides *)

Lemma probe_Some w args r :
  probe w args = Some r <-> exists uri, probe_uri w args = Some uri /\ http w uri = r.
Proof.
  unfold probe. destruct (probe_uri w args) as [uri|]; simpl; split.
  - intros [= <-]. eauto.
  - by intros (? & [= <-] & ->).
  - done.
  - by intros (? & ? & _).
Qed.

Lemma no_file_loaded w args : cfile w = None -> loaded w args = None.
Proof. intros H. unfold loaded. by rewrite load_config_cases, H. Qed.

Lemma malformed_loaded w args msg :
  cfile w = Some (Malformed msg) -> loaded w args = None.
Proof. intros H. unfold loaded. by rewrite load_config_cases, H. Qed.

Lemma no_section_loaded w args sections :
  cfile w = Some (Parsed sections) -> sections !! srv (init args) = None ->
  loaded w args = None.
Proof. intros H1 H2. unfold loaded. by rewrite load_config_cases, H1, H2. Qed.

Lemma not_loaded_probe_uri w args : loaded w args = None -> probe_uri w args = None.
Proof. unfold probe_uri. by intros ->. Qed.

Lemma not_loaded_failure_action w args : loaded w args = None -> failure_action w args = None.
Proof. unfold failure_action. by intros ->. Qed.

Lemma not_loaded_failure_classes w args :
  loaded w args = None -> failure_classes w args = None.
Proof. unfold failure_classes. by intros ->. Qed.

Lemma bad_settings_probe_uri w args self e :
  loaded w args = Some self -> snd (target_uri w self) = inl e -> probe_uri w args = None.
Proof. unfold probe_uri. by intros -> ->. Qed.

Lemma bad_classes_failure_classes w args self e :
  loaded w args = Some self -> snd (on_failure_classes w self) = inl e ->
  failure_classes w args = None.
Proof. unfold failure_classes. by intros -> ->. Qed.

Lemma bad_action_failure_action w args self e :
  loaded w args = Some self ->
  snd (ConfigParser.get (python w) (cfg self) (srv self) "failure_action" (Some ""))
    = inl e ->
  failure_action w args = None.
Proof. unfold failure_action. by intros -> ->. Qed.

Lemma probe_uri_cfile w args uri :
  probe_uri w args = Some uri ->
  exists sections,
    cfile w = Some (Parsed sections) /\ is_Some (sections !! srv (init args)).
Proof.
  rewrite probe_uri_Some. intros (self & Hself & _).
  apply loaded_Some in Hself as (sections & ? & ? & _). eauto.
Qed.

(** Case analysis of a run: one goal per path, with what the path tells
    about the world brought down to [probe_uri], [http], [body_json],
    [failure_classes] and [failure_action]. *)
Ltac by_paths w args :=
  unfold trace, exit_code in *;
  repeat match goal with
  | H : probe w args = Some _ |- _ =>
      destruct (proj1 (probe_Some _ _ _) H) as (? & ? & ?); clear H
  end;
  destruct (main_spec w args);
  try match goal with
  | H : cfile w = None |- _ =>
      pose proof (no_file_loaded w args H);
      pose proof (not_loaded_probe_uri w args (no_file_loaded w args H));
      pose proof (not_loaded_failure_classes w args (no_file_loaded w args H));
      pose proof (not_loaded_failure_action w args (no_file_loaded w args H))
  end;
  try match goal with
  | H : cfile w = Some (Malformed ?msg) |- _ =>
      pose proof (malformed_loaded w args msg H);
      pose proof (not_loaded_probe_uri w args (malformed_loaded w args msg H));
      pose proof (not_loaded_failure_classes w args (malformed_loaded w args msg H));
      pose proof (not_loaded_failure_action w args (malformed_loaded w args msg H))
  end;
  try match goal with
  | H1 : cfile w = Some (Parsed ?s), H2 : ?s !! srv (init args) = None |- _ =>
      pose proof (no_section_loaded w args s H1 H2);
      pose proof (not_loaded_probe_uri w args (no_section_loaded w args s H1 H2));
      pose proof (not_loaded_failure_classes w args (no_section_loaded w args s H1 H2));
      pose proof (not_loaded_failure_action w args (no_section_loaded w args s H1 H2))
  end;
  try match goal with
  | H1 : loaded w args = Some ?self, H2 : snd (target_uri w ?self) = inl ?e |- _ =>
      pose proof (bad_settings_probe_uri w args _ _ H1 H2)
  end;
  try match goal with
  | H1 : loaded w args = Some ?self, H2 : snd (on_failure_classes w ?self) = inl ?e |- _ =>
      pose proof (bad_classes_failure_classes w args _ _ H1 H2)
  end;
  try match goal with
  | H1 : loaded w args = Some ?self,
    H2 : snd (ConfigParser.get _ _ _ "failure_action" _) = inl ?e |- _ =>
      pose proof (bad_action_failure_action w args _ _ H1 H2)
  end;
  try match goal with
  | H : settings_error ?e = true |- _ => destruct e; try discriminate H
  end;
  simplify_eq;
  repeat match goal with
  | H1 : ?a = _, H2 : ?a = _ |- _ => rewrite H1 in H2; simplify_eq
  end;
  cbn [exit_status fst snd] in *;
  change (Z.land 1 255) with 1 in *; change (Z.land 2 255) with 2 in *.

Ltac eval_trace :=
  unfold probed_trace, loading_records, checking_records, restarting_records,
    unit_name, debug_records in *;
  destruct (debug_flag _); simpl in *.

(** ** C5: configuration errors *)

Lemma missing_configuration_exit w args :
  (cfile w = None \/
   exists sections,
     cfile w = Some (Parsed sections) /\ sections !! srv (init args) = None) ->
  exit_code w args = 2.
Proof.
  intros Hcfg.
  assert (Hnone : loaded w args = None).
  { destruct Hcfg as [H|(sections & H1 & H2)];
      [by apply no_file_loaded | by eapply no_section_loaded]. }
  pose proof (not_loaded_probe_uri w args Hnone).
  by_paths w args; try done; try congruence.
  destruct Hcfg as [?|(? & ? & ?)]; congruence.
Qed.

(** C5. When ./tripleo-healthchecks.conf does not exist, the run logs
    "Configuration file not found at ./tripleo-healthchecks.conf" at
    critical level as its last record, exits with code 2 and performs no
    HTTP GET; when the file exists (and [read] takes it in) but has no
    section named after the service identity, the same holds with the
    message "No configuration found for <identity>". *)
Theorem config_error_exits_2 w args :
  (cfile w = None \/
   exists sections,
     cfile w = Some (Parsed sections) /\ sections !! srv (init args) = None) ->
  exit_code w args = 2 /\
  (exists msg,
     trace w args = (loading_records args ++ [Log CRITICAL msg])%list /\
     msg = match cfile w with
           | None => "Configuration file not found at ./tripleo-healthchecks.conf"
           | Some _ => "No configuration found for " +:+ srv (init args)
           end) /\
  List.filter is_http_get (trace w args) = [].
Proof.
  intros Hcfg.
  assert (Hnone : loaded w args = None).
  { destruct Hcfg as [H|(sections & H1 & H2)];
      [by apply no_file_loaded | by eapply no_section_loaded]. }
  assert (Hmsg : forall sections,
            cfile w = Some (Parsed sections) -> sections !! srv (init args) = None).
  { intros sections Hs. destruct Hcfg as [H|(sections' & H1 & H2)]; congruence. }
  assert (Hread : forall msg, cfile w <> Some (Malformed msg)).
  { intros msg Hs. destruct Hcfg as [H|(sections' & H1 & H2)]; congruence. }
  clear Hcfg. unfold trace, exit_code.
  destruct (main_spec w args) as
    [Hf|msg' Hf|sections Hf Hs|self e Hl|uri msg Hp|uri msg Hp|self uri resp e Hl Hp
    |uri resp classes Hp|self uri resp classes status e Hl Hp
    |uri resp classes status action Hp|uri resp classes status action Hp
    |uri resp classes status msg Hp|uri resp classes status msg Hp
    |uri resp classes status Hp];
    try (apply probe_uri_Some in Hp as (self' & Hl' & _)); try congruence.
  - rewrite Hf. simpl. split_and!; [done|eauto|]. eval_trace; done.
  - rewrite Hf. simpl. split_and!; [done|eauto|]. eval_trace; done.
Qed.

Lemma config_error_exits_2_witness :
  cfile Sample.no_file = None /\
  exit_code Sample.no_file Sample.args = 2 /\
  List.filter is_http_get (trace Sample.no_file Sample.args) = [].
Proof.
  split; [reflexivity|].
  destruct (config_error_exits_2 Sample.no_file Sample.args) as (H2 & _ & Hget).
  - left. reflexivity.
  - split; assumption.
Defined.

(** ** The health decision *)

Lemma decided_paths w args healthy :
  decided w args healthy <->
  exists uri resp classes payload,
    probe_uri w args = Some uri /\ http w uri = Responded resp /\
    failure_classes w args = Some classes /\
    body_json resp = Some payload /\ healthy_status resp = healthy.
Proof.
  unfold decided. setoid_rewrite probe_Some. split.
  - intros (resp & payload & (uri & ? & ?) & [classes ?] & ? & ?).
    exists uri, resp, classes, payload. done.
  - intros (uri & resp & classes & payload & ? & ? & ? & ? & ?).
    exists resp, payload. split_and!; eauto.
Qed.

Lemma healthy_status_spec resp :
  healthy_status resp = true <-> status_code resp = 200 \/ status_code resp = 204.
Proof. unfold healthy_status. rewrite bool_decide_eq_true. set_solver. Qed.

(** ** C1: the status code decides *)




(** ** C2: the three exit codes *)




(** ** C3: when the restart is requested *)




(** ** C4: the outcome of the restart request *)




(** ** C6: connection failures *)

(** C6 as stated fails: in this run the GET is answered, but the body is
    not JSON; [json.loads] raises, nothing catches it, and the run ends
    before the payload record with no connection failure involved. *)
Lemma connection_failure_not_only_abort :
  let w := Sample.world Sample.nova_api Sample.garbled DBusOk in
  probe w Sample.args = Some Sample.garbled /\
  (forall msg, probe w Sample.args <> Some (ConnectionFailed msg)) /\
  main w Sample.args = ([HttpGet Sample.uri], inl JSONDecodeError) /\
  List.filter is_info (trace w Sample.args) = [] /\
  exit_code w Sample.args = 1.
Proof. repeat split; try reflexivity. intros msg. discriminate. Qed.

(** C6, amended. A connection failure of the GET is caught by [run_check]:
    its message is logged at critical level, [run_check] returns 1 and the
    process exits with code 1, with no INFO record in the trace and no call
    to the service manager. It is the only failure [run_check] returns from
    before the payload record: whenever [run_check] returns without having
    logged at INFO level, the GET had failed to connect. *)
Theorem connection_failure_handled w args self :
  loaded w args = Some self ->
  (forall uri msg,
     probe_uri w args = Some uri -> http w uri = ConnectionFailed msg ->
     run_check w self =
       ((checking_records args uri ++ [HttpGet uri; Log CRITICAL msg])%list,
        inr (PyInt 1)) /\
     exit_code w args = 1 /\
     List.filter is_info (trace w args) = [] /\
     List.filter is_bus_call (trace w args) = []) /\
  (forall v,
     snd (run_check w self) = inr v ->
     List.filter is_info (fst (run_check w self)) = [] ->
     exists msg, probe w args = Some (ConnectionFailed msg)).
Proof.
  intros Hself. split.
  - intros uri msg Huri Hhttp. split.
    + apply probe_uri_Some in Huri as (self' & Hself' & Huri).
      assert (self' = self) as -> by congruence.
      rewrite run_check_cases.
      pose proof (target_uri_pure w self) as Hpure.
      destruct (target_uri w self) as [t [e|uri']]; simpl in *; simplify_eq.
      rewrite Hhttp, (loaded_debug _ _ _ Hself). unfold checking_records.
      by rewrite <- app_assoc.
    + by_paths w args; try congruence. split; [done|]. eval_trace; done.
  - intros v. rewrite run_check_cases.
    pose proof (target_uri_pure w self) as Hpure.
    destruct (target_uri w self) as [t [e|uri]] eqn:Huri; simpl in Hpure; subst t; [done|].
    assert (Hprobe : probe_uri w args = Some uri).
    { apply probe_uri_Some. exists self. by rewrite Huri. }
    cbn zeta. destruct (http w uri) as [msg|msg|resp] eqn:Hhttp; [|done|].
    { intros _ _. exists msg. apply probe_Some. eauto. }
    destruct (snd (on_failure_classes w self)); [done|].
    destruct (body_json resp) as [status|]; [|done].
    destruct (snd (ConfigParser.get _ _ _ _ _)) as [e|action]; [done|].
    intros _. destruct (negb _ && _).
    + rewrite restart_service_cases.
      destruct (system_bus w); [destruct (restart_unit w _ _)|];
        unfold debug_records; destruct (debug self); done.
    + unfold debug_records; destruct (debug self); done.
Qed.

Lemma connection_failure_handled_witness :
  loaded (Sample.world Sample.nova_api (ConnectionFailed "Connection refused") DBusOk)
         Sample.args
    = Some (loaded_object Sample.args {[ "nova-api" := Sample.nova_api ]}) /\
  exit_code (Sample.world Sample.nova_api (ConnectionFailed "Connection refused") DBusOk)
            Sample.args = 1.
Proof.
  split; [reflexivity|].
  eapply (connection_failure_handled
            (Sample.world Sample.nova_api (ConnectionFailed "Connection refused") DBusOk)
            Sample.args
            (loaded_object Sample.args {[ "nova-api" := Sample.nova_api ]})).
  - reflexivity.
  - reflexivity.
  - reflexivity.
Defined.

(** ** [json.dumps] renders printable text *)

#[local] Arguments printable_char : simpl never.
#[local] Arguments PyNum.digit_char : simpl never.
#[local] Arguments Json.hex_digit : simpl never.
#[local] Arguments Json.u_escape : simpl never.
#[local] Arguments Json.escape_char : simpl never.


Lemma printable_app a b : printable (a +:+ b) = (printable a && printable b)%bool.
Proof. induction a as [|c a IH]; simpl; [done|]. by rewrite IH, andb_assoc. Qed.

Lemma printable_single_line s :
  printable s = true -> PyStr.contains newline s = false.
Proof.
  induction s as [|c s IH]; simpl; [done|].
  intros [Hc Hs]%andb_true_iff. rewrite (IH Hs), orb_false_r.
  apply Ascii.eqb_neq. intros ->. done.
Qed.

Lemma digit_char_code d : (48 <= nat_of_ascii (PyNum.digit_char d) <= 57)%nat.
Proof.
  unfold PyNum.digit_char.
  pose proof (Nat.mod_upper_bound d 10).
  rewrite nat_ascii_embedding; lia.
Qed.

Lemma digit_char_printable d : printable_char (PyNum.digit_char d) = true.
Proof.
  unfold printable_char. pose proof (digit_char_code d).
  apply andb_true_iff. split; apply Nat.leb_le; lia.
Qed.

Lemma digits_str_printable ds : printable (PyNum.digits_str ds) = true.
Proof.
  induction ds as [|d ds IH]; [done|].
  cbn [PyNum.digits_str printable]. by rewrite digit_char_printable, IH.
Qed.

Lemma int_repr_printable n : printable (PyNum.int_repr n) = true.
Proof. destruct n; simpl; [done|apply digits_str_printable..]. Qed.

Lemma finite_repr_printable ds p : printable (PyNum.finite_repr ds p) = true.
Proof.
  unfold PyNum.finite_repr, PyNum.zeros.
  repeat case_match;
    rewrite ?printable_app, ?int_repr_printable, ?digits_str_printable;
    cbn [printable PyNum.digits_str];
    rewrite ?digit_char_printable, ?digits_str_printable; done.
Qed.

Lemma floatstr_printable f : printable (PyNum.floatstr f) = true.
Proof.
  destruct f as [|[]|[] ds p]; simpl; try done; apply finite_repr_printable.
Qed.

Lemma hex_digit_printable n : printable_char (Json.hex_digit n) = true.
Proof.
  unfold Json.hex_digit, printable_char.
  assert (N.to_nat (N.land n 15) < 16)%nat as Hlt.
  { change 15%N with (N.ones 4). rewrite N.land_ones.
    pose proof (N.mod_upper_bound n (2 ^ 4)%N). lia. }
  case_match; rewrite nat_ascii_embedding by lia;
    apply andb_true_iff; split; apply Nat.leb_le; lia.
Qed.

Lemma u_escape_printable c : printable (Json.u_escape c) = true.
Proof. unfold Json.u_escape. cbn [printable]. by rewrite !hex_digit_printable. Qed.

Lemma escape_char_printable c : printable (Json.escape_char c) = true.
Proof.
  unfold Json.escape_char.
  repeat case_match; try done;
    rewrite ?printable_app, ?u_escape_printable; try done.
  simpl. rewrite andb_true_r. unfold printable_char.
  apply andb_true_iff in H6 as [Hlo Hhi].
  apply N.leb_le in Hlo, Hhi.
  unfold nat_of_ascii. rewrite N_ascii_embedding by lia.
  apply andb_true_iff. split; apply Nat.leb_le; lia.
Qed.

Lemma encode_printable s : printable (Json.encode_basestring_ascii s) = true.
Proof.
  unfold Json.encode_basestring_ascii. rewrite !printable_app.
  assert (printable (Json.escape s) = true) as ->; [|done].
  induction s as [|c s IH]; simpl; [done|].
  by rewrite printable_app, escape_char_printable.
Qed.

Lemma comma_separated_printable {A} (f : A -> string) l :
  Forall (fun x => printable (f x) = true) l ->
  printable (Json.comma_separated f l) = true.
Proof.
  induction 1 as [|x l Hx Hl IH]; [done|].
  cbn [Json.comma_separated]. rewrite printable_app, Hx.
  destruct l; [done|]. by rewrite printable_app, IH.
Qed.

Theorem dumps_printable j : printable (Json.dumps j) = true.
Proof.
  induction j as [|[]|n|f|s|items IH|members IH] using Json.json_ind;
    cbn [Json.dumps]; try done.
  - apply int_repr_printable.
  - apply floatstr_printable.
  - apply encode_printable.
  - rewrite !printable_app, comma_separated_printable; done.
  - rewrite !printable_app, comma_separated_printable; [done|].
    eapply Forall_impl; [exact IH|]. intros [k v] Hv. cbn [fst snd] in *.
    by rewrite !printable_app, encode_printable, Hv.
Qed.

(** ** The first character of a rendered payload *)

Lemma digits_str_first d ds :
  first_char (PyNum.digits_str (d :: ds)) = Some (PyNum.digit_char d).
Proof. done. Qed.

Lemma uint_digits_nonnil u : u <> Decimal.Nil -> PyNum.uint_digits u <> [].
Proof. by destruct u. Qed.


Lemma first_char_app a b c :
  first_char a = Some c -> first_char (a +:+ b) = Some c.
Proof. by destruct a. Qed.

Lemma digits_str_first_digit ds :
  ds <> [] -> exists c, first_char (PyNum.digits_str ds) = Some c /\ is_digit_or_sign c.
Proof.
  destruct ds as [|d ds]; [done|]. intros _. eexists. split; [done|].
  left. apply digit_char_code.
Qed.

Lemma int_repr_first n :
  exists c, first_char (PyNum.int_repr n) = Some c /\ is_digit_or_sign c.
Proof.
  destruct n as [|p|p]; simpl.
  - eexists. split; [done|]. left. vm_compute. lia.
  - apply digits_str_first_digit, uint_digits_nonnil, DecimalPos.Unsigned.to_uint_nonnil.
  - eexists. split; [done|]. by right.
Qed.

Lemma finite_repr_first ds p :
  exists c, first_char (PyNum.finite_repr ds p) = Some c /\ is_digit_or_sign c.
Proof.
  unfold PyNum.finite_repr.
  destruct (_ || _)%bool.
  { destruct ds as [|d [|d' ds]]; eexists; (split; [done|]); left;
      solve [apply digit_char_code | vm_compute; lia]. }
  destruct (p <=? 0)%Z eqn:Hp0.
  { eexists. split; [done|]. left. vm_compute. lia. }
  apply Z.leb_gt in Hp0.
  destruct (_ <=? p)%Z eqn:Hn.
  - destruct ds as [|d ds].
    + unfold PyNum.zeros. cbn [length PyNum.digits_str String.append].
      destruct (Z.to_nat _) eqn:Hz; [simpl in Hz; lia|].
      eexists. split; [done|]. left. apply digit_char_code.
    + eexists. split; [done|]. left. apply digit_char_code.
  - apply Z.leb_gt in Hn.
    destruct ds as [|d ds]; [simpl in Hn; lia|].
    destruct (Z.to_nat p) eqn:Hz; [lia|].
    eexists. split; [done|]. left. apply digit_char_code.
Qed.

(** A rendered payload starts with a digit, a minus sign, a quote, a
    bracket, a brace, or the first letter of [null], [true], [false], [NaN]
    or [Infinity]. *)
Lemma dumps_first j :
  exists c, first_char (Json.dumps j) = Some c /\
    (is_digit_or_sign c \/ c ∈ ["n"; "t"; "f"; "N"; "I"; ascii_of_nat 34; "["; "{"]%char).
Proof.
  destruct j as [|[]|n|f|s|items|members]; cbn [Json.dumps];
    try (eexists; split; [done|right; set_solver]).
  - destruct (int_repr_first n) as (c & ? & ?). eauto.
  - destruct f as [|[]|[] ds p]; simpl;
      try (eexists; split; [done|]; (right; set_solver) || (left; by right)).
    destruct (finite_repr_first ds p) as (c & ? & ?). eauto.
Qed.

Lemma dumps_not_confirmation j name :
  Json.dumps j <> "Successfuly requested restart on " +:+ name +:+ " service".
Proof.
  intros Heq. destruct (dumps_first j) as (c & Hc & Hcase).
  rewrite Heq in Hc. simpl in Hc. simplify_eq.
  destruct Hcase as [[Hd|Hd]|Hin].
  - change (nat_of_ascii "S") with 83%nat in Hd. lia.
  - discriminate Hd.
  - apply list_elem_of_In in Hin. simpl in Hin.
    repeat (destruct Hin as [Hin|Hin]; [discriminate Hin|]). done.
Qed.


(** ** C7: the payload record *)




(** ** [str.split] and [str.join] *)

Lemma append_cons x (a b : string) : String x a +:+ b = String x (a +:+ b).
Proof. reflexivity. Qed.

Lemma append_assoc (a b c : string) : (a +:+ b) +:+ c = a +:+ (b +:+ c).
Proof. induction a as [|x a IH]; [done|]. by rewrite !append_cons, IH. Qed.

Lemma append_nil_r (a : string) : a +:+ "" = a.
Proof. induction a as [|x a IH]; [done|]. by rewrite append_cons, IH. Qed.

Lemma rev_app_app s1 s2 s3 :
  String.rev_app s1 s2 +:+ s3 = String.rev_app s1 (s2 +:+ s3).
Proof.
  revert s2. induction s1 as [|a s1 IH]; intros s2; [done|].
  cbn [String.rev_app]. by rewrite IH.
Qed.

Lemma rev_app_append s1 s2 : String.rev_app s1 s2 = String.rev s1 +:+ s2.
Proof. unfold String.rev. by rewrite rev_app_app. Qed.

Lemma split_from_nonempty sep s cur : PyStr.split_from sep s cur <> [].
Proof. revert cur. induction s as [|a s IH]; intros cur; simpl; [done|]. by case_match. Qed.

Lemma join_cons sep x l : l <> [] -> PyStr.join sep (x :: l) = x +:+ sep +:+ PyStr.join sep l.
Proof. by destruct l. Qed.

Lemma join_split_from sep s cur :
  PyStr.join (String sep "") (PyStr.split_from sep s cur) = String.rev cur +:+ s.
Proof.
  revert cur. induction s as [|a s IH]; intros cur; cbn [PyStr.split_from].
  - cbn [PyStr.join]. by rewrite append_nil_r.
  - destruct (Ascii.eqb_spec a sep) as [->|Hne].
    + rewrite join_cons by apply split_from_nonempty. by rewrite IH.
    + rewrite IH. unfold String.rev at 1. cbn [String.rev_app].
      by rewrite rev_app_append, append_assoc.
Qed.

(** Joining the pieces of [s.split(sep)] with [sep] gives [s] back. *)
Lemma join_split s sep : PyStr.join (String sep "") (PyStr.split s sep) = s.
Proof. unfold PyStr.split. by rewrite join_split_from. Qed.

Lemma split_nonempty s sep : PyStr.split s sep <> [].
Proof. apply split_from_nonempty. Qed.

(** ** Values without a percent sign *)

Lemma interpolate_loop_plain py values deeper v :
  PyStr.contains "%" v = false ->
  ConfigParser.interpolate_loop py values deeper v ConfigParser.Text = inr v.
Proof.
  induction v as [|c v IH]; [done|].
  cbn [PyStr.contains ConfigParser.interpolate_loop].
  intros [Hc Hv]%orb_false_iff. by rewrite Hc, IH.
Qed.

Lemma before_get_plain py values v :
  PyStr.contains "%" v = false -> ConfigParser.before_get py values v = inr v.
Proof. apply interpolate_loop_plain. Qed.

(** [get] on an option that is missing or written without "%". *)
Lemma get_plain py c section values opt fallback :
  c !! section = Some values ->
  (forall v, values !! opt = Some v -> PyStr.contains "%" v = false) ->
  ConfigParser.get py c section opt fallback =
  match values !! opt with
  | Some v => ([], inr v)
  | None =>
      match fallback with
      | Some d => ([], inr d)
      | None => ([], inl (NoOptionError opt section))
      end
  end.
Proof.
  intros Hsec Hplain. unfold ConfigParser.get. rewrite Hsec.
  destruct (values !! opt) as [v|]; [|done].
  by rewrite before_get_plain by auto.
Qed.

(** ** Runs on configurations that read alike *)

Lemma target_uri_alike w self sections' :
  read_alike (python w) "on_failure_classes" (srv self) (cfg self) sections' ->
  target_uri (with_sections w sections')
    {| srv := srv self; debug := debug self; cfg := sections'; logger := logger self |}
  = target_uri w self.
Proof.
  intros Halike.
  unfold target_uri, ConfigParser.getboolean, ConfigParser.getint.
  cbn [python with_sections srv cfg]. by rewrite !Halike.
Qed.

Lemma run_check_alike w self sections' :
  read_alike (python w) "on_failure_classes" (srv self) (cfg self) sections' ->
  let w' := with_sections w sections' in
  let self' := {| srv := srv self; debug := debug self; cfg := sections';
                  logger := logger self |} in
  (exists classes', snd (on_failure_classes w' self') = inr classes') ->
  (exists classes, snd (on_failure_classes w self) = inr classes) ->
  run_check w' self' = run_check w self.
Proof.
  intros Halike w' self' [classes' Hc'] [classes Hc].
  rewrite !run_check_cases. unfold w', self'. rewrite target_uri_alike by done.
  fold w' self'. rewrite Hc, Hc'.
  cbn [python with_sections srv cfg http debug w' self'].
  rewrite Halike by done.
  rewrite !restart_service_cases.
  cbn [system_bus restart_unit with_sections srv debug]. done.
Qed.

Lemma read_alike_plain py key section sections values values' :
  sections !! section = Some values ->
  agree_except key values values' ->
  (forall opt v, opt <> key -> values !! opt = Some v -> PyStr.contains "%" v = false) ->
  read_alike py key section sections (<[section := values']> sections).
Proof.
  intros Hsec Hagree Hplain opt fallback Hne.
  rewrite (get_plain py _ section values') by
    (rewrite ?lookup_insert_eq; try done; intros v; rewrite Hagree by done; eauto).
  rewrite (get_plain py _ section values) by eauto.
  by rewrite Hagree.
Qed.

Lemma main_alike w args sections values values' :
  cfile w = Some (Parsed sections) ->
  sections !! srv (init args) = Some values ->
  read_alike (python w) "on_failure_classes" (srv (init args)) sections
    (<[srv (init args) := values']> sections) ->
  is_Some (failure_classes w args) ->
  is_Some (failure_classes (with_sections w (<[srv (init args) := values']> sections)) args) ->
  main (with_sections w (<[srv (init args) := values']> sections)) args = main w args.
Proof.
  intros Hfile Hsec Halike [classes Hc] [classes' Hc'].
  unfold failure_classes, loaded in Hc, Hc'. rewrite load_config_cases in Hc, Hc'.
  rewrite Hfile, Hsec in Hc. cbn [cfile with_sections] in Hc'.
  rewrite lookup_insert_eq in Hc'. cbn [snd] in Hc, Hc'.
  unfold main. rewrite !load_config_cases, Hfile, Hsec. cbn [cfile with_sections].
  rewrite lookup_insert_eq. cbn [try_except]. f_equal.
  rewrite !bind_pure by done. cbn [snd].
  change (loaded_object args (<[srv (init args) := values']> sections))
    with {| srv := srv (loaded_object args sections);
            debug := debug (loaded_object args sections);
            cfg := <[srv (init args) := values']> sections;
            logger := logger (loaded_object args sections) |} in *.
  rewrite run_check_alike; [done|done| |].
  - destruct (snd (on_failure_classes (with_sections _ _) _)); [done|eauto].
  - destruct (snd (on_failure_classes w _)); [done|eauto].
Qed.

(** ** C8: [on_failure_classes] *)




(** ** C9: a missing or unparsable port *)

(** C9 on the code: with a section that has no [port], [getint] raises
    NoOptionError out of [run_check]; nothing catches it, so nothing is
    logged, no GET is sent and the interpreter ends the process with
    status 1, where the header of the script promises 2 and a critical
    record for a configuration error. *)
Lemma missing_port_exits_1 :
  let w := Sample.world (delete "port" Sample.nova_api) (Sample.response 200) DBusOk in
  main w Sample.args = ([], inl (NoOptionError "port" "nova-api")) /\
  exit_code w Sample.args = 1.
Proof. split; reflexivity. Qed.

(** The same with a [port] that is not an integer literal. *)
Lemma unparsable_port_exits_1 :
  let w := Sample.world (<["port" := "http"]> Sample.nova_api) (Sample.response 200) DBusOk in
  main w Sample.args =
    ([], inl (ValueError "http")) /\
  exit_code w Sample.args = 1.
Proof. split; reflexivity. Qed.

(** ** Slices and [rfind] on concatenations *)

Lemma length_append a b :
  String.length (a +:+ b) = (String.length a + String.length b)%nat.
Proof. induction a as [|x a IH]; [done|]. rewrite append_cons. cbn. by rewrite IH. Qed.

Lemma take_append a b : PyStr.take (String.length a) (a +:+ b) = a.
Proof.
  induction a as [|x a IH]; [by destruct b|].
  rewrite append_cons. cbn. by rewrite IH.
Qed.

Lemma drop_append a b : PyStr.drop (String.length a) (a +:+ b) = b.
Proof. induction a as [|x a IH]; [done|]. rewrite append_cons. cbn. by rewrite IH. Qed.

Lemma slice_at a c b :
  PyStr.slice (a +:+ String c b) (Z.of_nat (String.length a))
    (Z.of_nat (String.length a) + 1) = String c "".
Proof.
  unfold PyStr.slice.
  replace (Z.of_nat (String.length a) + 1 - Z.of_nat (String.length a)) with 1 by lia.
  rewrite Nat2Z.id, drop_append. done.
Qed.

Lemma contains_append c a b :
  PyStr.contains c (a +:+ b) = PyStr.contains c a || PyStr.contains c b.
Proof.
  induction a as [|x a IH]; [done|].
  rewrite append_cons. cbn. rewrite IH. by rewrite orb_assoc.
Qed.

Lemma rfind_from_append c a b i last :
  PyStr.rfind_from c (a +:+ b) i last =
  PyStr.rfind_from c b (i + Z.of_nat (String.length a)) (PyStr.rfind_from c a i last).
Proof.
  revert i last. induction a as [|x a IH]; intros i last.
  - cbn. by rewrite Z.add_0_r.
  - rewrite append_cons. cbn [PyStr.rfind_from String.length]. rewrite IH.
    f_equal. lia.
Qed.

Lemma rfind_from_absent c s i last :
  PyStr.contains c s = false -> PyStr.rfind_from c s i last = last.
Proof.
  revert i last. induction s as [|x s IH]; intros i last; [done|].
  cbn. intros [-> Hs]%orb_false_iff. by apply IH.
Qed.

Lemma rfind_from_bound c s i last :
  last < i ->
  last <= PyStr.rfind_from c s i last < i + Z.of_nat (String.length s).
Proof.
  revert i last. induction s as [|x s IH]; intros i last Hlast.
  - cbn. lia.
  - cbn [PyStr.rfind_from String.length].
    destruct (Ascii.eqb x c).
    + pose proof (IH (i + 1) i). lia.
    + pose proof (IH (i + 1) last). lia.
Qed.

Lemma all_dots_no_sep s : all_dots s = true -> PyStr.contains OsPath.sep s = false.
Proof.
  induction s as [|x s IH]; [done|].
  cbn. intros [Hx Hs]%andb_true_iff. apply Ascii.eqb_eq in Hx as ->.
  by rewrite IH.
Qed.

Lemma rfind_from_all_dots s i last :
  all_dots s = true -> s <> "" ->
  PyStr.rfind_from OsPath.extsep s i last = i + Z.of_nat (String.length s) - 1.
Proof.
  revert i last. induction s as [|x s IH]; intros i last Hs Hne; [done|].
  cbn in Hs. apply andb_true_iff in Hs as [Hx Hs].
  cbn [PyStr.rfind_from String.length]. rewrite Hx.
  destruct s as [|y s]; [cbn; lia|].
  rewrite IH by done. cbn [String.length]. lia.
Qed.

Lemma all_dots_slice dir dots ext j :
  all_dots dots = true -> (j < String.length dots)%nat ->
  PyStr.slice (dir +:+ dots +:+ ext) (Z.of_nat (String.length dir + j))
    (Z.of_nat (String.length dir + j) + 1) = String OsPath.extsep "".
Proof.
  revert dir j. induction dots as [|x dots IH]; intros dir j Hdots Hj; [cbn in Hj; lia|].
  cbn in Hdots. apply andb_true_iff in Hdots as [Hx Hdots].
  apply Ascii.eqb_eq in Hx as ->.
  destruct j as [|j].
  - rewrite Nat.add_0_r, append_cons. apply slice_at.
  - replace (dir +:+ String OsPath.extsep dots +:+ ext)
      with ((dir +:+ String OsPath.extsep "") +:+ dots +:+ ext)
      by (by rewrite append_assoc, !append_cons).
    replace (String.length dir + S j)%nat
      with (String.length (dir +:+ String OsPath.extsep "") + j)%nat
      by (rewrite length_append; cbn; lia).
    apply IH; [done|]. cbn in Hj. lia.
Qed.

Lemma all_dots_false s :
  all_dots s = false ->
  exists s1 c s2, s = s1 +:+ String c s2 /\ c <> OsPath.extsep.
Proof.
  induction s as [|x s IH]; [done|].
  cbn. destruct (Ascii.eqb x OsPath.extsep) eqn:Hx.
  - cbn. intros (s1 & c & s2 & -> & Hc)%IH.
    exists (String x s1), c, s2. by rewrite append_cons.
  - intros _. exists "", x, s. split; [done|]. by apply Ascii.eqb_neq.
Qed.

(** ** [os.path.splitext] *)

Lemma splitext_loop_dots p dotIndex n f :
  (forall k, f <= k < f + Z.of_nat n ->
     PyStr.slice p k (k + 1) = String OsPath.extsep "") ->
  OsPath.splitext_loop p dotIndex n f = (p, "").
Proof.
  revert f. induction n as [|n IH]; intros f Hdots; [done|].
  cbn [OsPath.splitext_loop]. rewrite Hdots by lia.
  rewrite String.eqb_refl. cbn [negb]. apply IH. intros k Hk. apply Hdots. lia.
Qed.

Lemma splitext_loop_found p dotIndex n f k :
  f <= k < f + Z.of_nat n ->
  PyStr.slice p k (k + 1) <> String OsPath.extsep "" ->
  OsPath.splitext_loop p dotIndex n f =
  (PyStr.take (Z.to_nat dotIndex) p, PyStr.drop (Z.to_nat dotIndex) p).
Proof.
  revert f. induction n as [|n IH]; intros f Hk Hne; [lia|].
  cbn [OsPath.splitext_loop].
  destruct (String.eqb (PyStr.slice p f (f + 1)) (String OsPath.extsep "")) eqn:Hf;
    [|done].
  cbn [negb]. apply IH; [|done].
  apply String.eqb_eq in Hf.
  destruct (decide (k = f)) as [->|]; [done|lia].
Qed.

(** A name whose last dot follows, within the last path component, a
    character that is not a dot loses what starts at that dot. *)
Lemma splitext_extension dir stem ext :
  PyStr.contains OsPath.sep stem = false ->
  PyStr.contains OsPath.sep ext = false ->
  PyStr.contains OsPath.extsep ext = false ->
  all_dots stem = false ->
  OsPath.splitext (dir +:+ stem +:+ String OsPath.extsep ext) =
  (dir +:+ stem, String OsPath.extsep ext).
Proof.
  intros Hstem Hext Hdot (s1 & c & s2 & -> & Hc)%all_dots_false.
  set (p := dir +:+ (s1 +:+ String c s2) +:+ String OsPath.extsep ext).
  set (body := dir +:+ s1 +:+ String c s2).
  assert (Hp : p = body +:+ String OsPath.extsep ext)
    by (unfold p, body; by rewrite !append_assoc).
  assert (Hsep : -1 <= PyStr.rfind p OsPath.sep < Z.of_nat (String.length dir)).
  { unfold PyStr.rfind, p. rewrite rfind_from_append.
    rewrite (rfind_from_absent _ (_ +:+ _)).
    - apply rfind_from_bound. lia.
    - rewrite contains_append, Hstem. cbn. by rewrite Hext. }
  assert (Hdotix : PyStr.rfind p OsPath.extsep = Z.of_nat (String.length body)).
  { unfold PyStr.rfind. rewrite Hp, rfind_from_append.
    cbn [PyStr.rfind_from]. rewrite Ascii.eqb_refl.
    by rewrite rfind_from_absent. }
  assert (Hlen : String.length body =
                 (String.length dir + String.length s1 + S (String.length s2))%nat).
  { unfold body. rewrite !length_append. cbn. lia. }
  unfold OsPath.splitext. fold p. rewrite Hdotix.
  destruct (Z.gtb_spec (Z.of_nat (String.length body)) (PyStr.rfind p OsPath.sep));
    [|lia].
  rewrite (splitext_loop_found _ _ _ _ (Z.of_nat (String.length (dir +:+ s1)))).
  - rewrite Nat2Z.id, Hp. by rewrite take_append, drop_append.
  - rewrite length_append. lia.
  - replace p with ((dir +:+ s1) +:+ String c (s2 +:+ String OsPath.extsep ext))
      by (unfold p; by rewrite !append_assoc, append_cons).
    rewrite slice_at. intros [= ->]. done.
Qed.

(** A name without a dot in its last path component, or with leading dots
    only there, is kept whole. *)
Lemma splitext_no_extension dir dots ext :
  dir = "" \/ (exists d, dir = d +:+ String OsPath.sep "") ->
  all_dots dots = true ->
  PyStr.contains OsPath.sep ext = false ->
  PyStr.contains OsPath.extsep ext = false ->
  OsPath.splitext (dir +:+ dots +:+ ext) = (dir +:+ dots +:+ ext, "").
Proof.
  intros Hdir Hdots Hext Hdot.
  set (p := dir +:+ dots +:+ ext).
  assert (Htail : PyStr.contains OsPath.sep (dots +:+ ext) = false)
    by (by rewrite contains_append, all_dots_no_sep, Hext).
  assert (Hsep : PyStr.rfind p OsPath.sep = Z.of_nat (String.length dir) - 1).
  { unfold PyStr.rfind, p. destruct Hdir as [->|[d ->]].
    - by rewrite rfind_from_absent.
    - rewrite append_assoc, rfind_from_append, append_cons.
      cbn [PyStr.rfind_from]. rewrite Ascii.eqb_refl.
      change ("" +:+ dots +:+ ext) with (dots +:+ ext).
      rewrite rfind_from_absent by done. rewrite length_append. cbn. lia. }
  assert (Hlast : PyStr.rfind dir OsPath.extsep <= Z.of_nat (String.length dir) - 1).
  { unfold PyStr.rfind. destruct Hdir as [->|[d ->]]; [done|].
    rewrite rfind_from_append. cbn.
    pose proof (rfind_from_bound OsPath.extsep d 0 (-1)).
    rewrite length_append. cbn. lia. }
  assert (Hdotix : PyStr.rfind p OsPath.extsep =
                   PyStr.rfind_from OsPath.extsep dots (Z.of_nat (String.length dir))
                     (PyStr.rfind dir OsPath.extsep)).
  { unfold PyStr.rfind, p. rewrite !rfind_from_append.
    by rewrite (rfind_from_absent _ ext). }
  unfold OsPath.splitext. fold p. rewrite Hdotix, Hsep.
  destruct dots as [|x dots]; cbn [PyStr.rfind_from].
  { destruct (Z.gtb_spec (PyStr.rfind dir OsPath.extsep)
                (Z.of_nat (String.length dir) - 1)); [lia|]. by destruct p. }
  change (PyStr.rfind_from OsPath.extsep dots _ _)
    with (PyStr.rfind_from OsPath.extsep (String x dots) (Z.of_nat (String.length dir))
            (PyStr.rfind dir OsPath.extsep)).
  rewrite rfind_from_all_dots by done.
  destruct (Z.gtb_spec (Z.of_nat (String.length dir) +
                        Z.of_nat (String.length (String x dots)) - 1)
              (Z.of_nat (String.length dir) - 1)); [|by destruct p].
  apply splitext_loop_dots. intros k Hk.
  replace k with (Z.of_nat (String.length dir + Z.to_nat (k - Z.of_nat (String.length dir))))
    by lia.
  apply all_dots_slice; [done|]. lia.
Qed.

Lemma splitext_no_dot p :
  PyStr.contains OsPath.extsep p = false -> OsPath.splitext p = (p, "").
Proof.
  intros Hdot. unfold OsPath.splitext, PyStr.rfind.
  rewrite (rfind_from_absent OsPath.extsep) by done.
  pose proof (rfind_from_bound OsPath.sep p 0 (-1)).
  destruct (Z.gtb_spec (-1) (PyStr.rfind_from OsPath.sep p 0 (-1))); [lia|].
  by destruct p.
Qed.

Lemma strip_final_extension_no_dot p :
  PyStr.contains OsPath.extsep p = false -> strip_final_extension p = p.
Proof.
  intros Hdot. unfold strip_final_extension, PyStr.rfind.
  by rewrite rfind_from_absent.
Qed.

Lemma strip_final_extension_last_dot body ext :
  PyStr.contains OsPath.extsep ext = false ->
  strip_final_extension (body +:+ String OsPath.extsep ext) = body.
Proof.
  intros Hdot. unfold strip_final_extension, PyStr.rfind.
  rewrite rfind_from_append. cbn [PyStr.rfind_from]. rewrite Ascii.eqb_refl.
  rewrite rfind_from_absent by done.
  destruct (Z.ltb_spec (0 + Z.of_nat (String.length body)) 0); [lia|].
  by rewrite Z.add_0_l, Nat2Z.id, take_append.
Qed.

(** ** C10: the service identity *)

(** C10 as stated fails where [os.path.splitext] finds no extension
    although the argument has a dot: the argument ".service" is its own
    identity (section key [.service], unit [.service.service]) where the
    removal of the final extension leaves the empty string, and the dot of
    "system.slice/nova-api" lies in the directory part. *)
Lemma identity_keeps_leading_dot :
  let a := {| service := ".service"; debug_flag := false |} in
  let w := {| python := Sample.cpython;
              cfile := Some (Parsed {[ ".service" := Sample.nova_api_restart ]});
              http := fun _ => Sample.response 503;
              system_bus := DBusOk;
              restart_unit := fun _ _ => DBusOk |} in
  srv (init a) = ".service" /\
  strip_final_extension (service a) = "" /\
  srv (init a) <> strip_final_extension (service a) /\
  is_Some (loaded w a) /\
  List.filter is_bus_call (trace w a) = [SystemBus; RestartUnit ".service.service" "fail"] /\
  srv (init {| service := "system.slice/nova-api"; debug_flag := false |}) =
    "system.slice/nova-api" /\
  strip_final_extension "system.slice/nova-api" = "system".
Proof. cbv zeta. split_and!; try reflexivity; [done|by eexists]. Qed.

(** C10, amended. The service identity is the root that [os.path.splitext]
    gives for the argument. It is the section looked up in the configuration
    file, the suffix of the logger's name after "healthcheck." and, followed
    by ".service", the unit of every restart request. An argument without a
    dot is its own identity. When the last dot of the argument lies in its
    last path component and follows there a character that is not a dot, the
    identity is the argument up to that dot, whatever follows the dot: the
    argument with its final extension removed. When the last path component
    has no dot, or only leading dots, the identity is the argument itself. *)
Theorem service_identity w args :
  let identity := srv (init args) in
  (forall sections, cfile w = Some (Parsed sections) ->
     (is_Some (loaded w args) <-> is_Some (sections !! identity))) /\
  logger (init args) = "healthcheck." +:+ identity /\
  (forall self, loaded w args = Some self ->
     srv self = identity /\ logger self = "healthcheck." +:+ identity) /\
  (forall name mode, RestartUnit name mode ∈ trace w args ->
     name = identity +:+ ".service" /\ mode = "fail") /\
  (PyStr.contains "." (service args) = false ->
     identity = service args /\ identity = strip_final_extension (service args)) /\
  (forall dir stem ext,
     service args = dir +:+ stem +:+ "." +:+ ext ->
     PyStr.contains "/" stem = false ->
     all_dots stem = false ->
     PyStr.contains "/" ext = false ->
     PyStr.contains "." ext = false ->
     identity = dir +:+ stem /\ identity = strip_final_extension (service args)) /\
  (forall dir dots ext,
     service args = dir +:+ dots +:+ ext ->
     dir = "" \/ (exists d, dir = d +:+ "/") ->
     all_dots dots = true ->
     PyStr.contains "/" ext = false ->
     PyStr.contains "." ext = false ->
     identity = service args).
Proof.
  cbv zeta. split_and!.
  - intros sections Hfile. unfold loaded. rewrite load_config_cases, Hfile.
    destruct (sections !! srv (init args)); cbn; split; intros [? ?]; done.
  - done.
  - intros self (sections & _ & _ & ->)%loaded_Some. done.
  - intros name mode Hin.
    by_paths w args; eval_trace;
      apply list_elem_of_In in Hin; simpl in Hin;
      repeat (destruct Hin as [Hin|Hin]; [by simplify_eq|]); done.
  - intros Hdot. unfold init. cbn [srv].
    by rewrite splitext_no_dot, strip_final_extension_no_dot.
  - intros dir stem ext Hs Hstem Hdots Hext Hdot. unfold init. cbn [srv]. rewrite Hs.
    change ("." +:+ ext) with (String OsPath.extsep ext).
    rewrite splitext_extension by done. cbn [fst]. split; [done|].
    by rewrite <- append_assoc, strip_final_extension_last_dot.
  - intros dir dots ext Hs Hdir Hdots Hext Hdot. unfold init. cbn [srv]. rewrite Hs.
    by rewrite splitext_no_extension.
Qed.

Lemma service_identity_witness :
  srv (init Sample.args) = "nova-api" /\
  srv (init {| service := "nova-api.anything"; debug_flag := false |}) = "nova-api" /\
  srv (init {| service := "nova-api"; debug_flag := false |}) = "nova-api" /\
  srv (init {| service := ".service"; debug_flag := false |}) = ".service".
Proof.
  split_and!.
  - apply (proj1 (proj1 (proj2 (proj2 (proj2 (proj2 (proj2
             (service_identity Sample.no_file Sample.args))))))
             "" "nova-api" "service" eq_refl eq_refl eq_refl eq_refl eq_refl)).
  - apply (proj1 (proj1 (proj2 (proj2 (proj2 (proj2 (proj2
             (service_identity Sample.no_file
                {| service := "nova-api.anything"; debug_flag := false |}))))))
             "" "nova-api" "anything" eq_refl eq_refl eq_refl eq_refl eq_refl)).
  - apply (proj1 (proj1 (proj2 (proj2 (proj2 (proj2
             (service_identity Sample.no_file
                {| service := "nova-api"; debug_flag := false |})))))
             eq_refl)).
  - apply (proj2 (proj2 (proj2 (proj2 (proj2 (proj2
             (service_identity Sample.no_file
                {| service := ".service"; debug_flag := false |}))))))
             "" "." "service" eq_refl (or_introl eq_refl) eq_refl eq_refl eq_refl).
Defined.

(** * Further properties *)

(** ** The [--debug] flag *)

Lemma with_debug_loaded w args d :
  loaded w (with_debug args d) =
  (fun self => {| srv := srv self; debug := d; cfg := cfg self; logger := logger self |})
    <$> loaded w args.
Proof.
  unfold loaded. rewrite !load_config_cases.
  change (srv (init (with_debug args d))) with (srv (init args)).
  destruct (cfile w) as [[msg|sections]|]; [done| |done].
  by destruct (sections !! srv (init args)).
Qed.

Lemma with_debug_probe_uri w args d : probe_uri w (with_debug args d) = probe_uri w args.
Proof. unfold probe_uri. rewrite with_debug_loaded. by destruct (loaded w args). Qed.

Lemma with_debug_failure_action w args d :
  failure_action w (with_debug args d) = failure_action w args.
Proof. unfold failure_action. rewrite with_debug_loaded. by destruct (loaded w args). Qed.

Lemma with_debug_failure_classes w args d :
  failure_classes w (with_debug args d) = failure_classes w args.
Proof. unfold failure_classes. rewrite with_debug_loaded. by destruct (loaded w args). Qed.

(** X1. The [--debug] flag changes nothing but the DEBUG records: with
    the flag set either way, a run makes the same calls, emits the same
    INFO and CRITICAL records in the same order and ends with the same
    result and exit code; and without the flag no DEBUG record is emitted. *)
Theorem debug_flag_only_adds_debug_records w args d :
  List.filter (fun ev => negb (is_debug ev)) (trace w (with_debug args d)) =
    List.filter (fun ev => negb (is_debug ev)) (trace w args) /\
  snd (main w (with_debug args d)) = snd (main w args) /\
  exit_code w (with_debug args d) = exit_code w args /\
  List.filter is_debug (trace w (with_debug args false)) = [].
Proof.
  assert (Hquiet : List.filter is_debug (trace w (with_debug args false)) = []).
  { unfold trace. destruct (main_spec w (with_debug args false));
      unfold probed_trace, loading_records, checking_records, restarting_records,
        debug_records; done. }
  pose proof (with_debug_probe_uri w args d) as Hp.
  pose proof (with_debug_failure_action w args d) as Hf.
  pose proof (with_debug_failure_classes w args d) as Hc.
  pose proof (with_debug_loaded w args d) as Hl.
  assert (Hs : srv (init (with_debug args d)) = srv (init args)) by done.
  assert (Hu : unit_name (with_debug args d) = unit_name args) by done.
  unfold trace, exit_code in *.
  destruct (main_spec w args); destruct (main_spec w (with_debug args d));
    rewrite ?Hs, ?Hu in *;
    try match goal with
    | H : cfile w = None |- _ =>
        pose proof (no_file_loaded w args H);
        pose proof (not_loaded_probe_uri w args (no_file_loaded w args H))
    end;
    try match goal with
    | H : cfile w = Some (Malformed ?msg) |- _ =>
        pose proof (malformed_loaded w args msg H);
        pose proof (not_loaded_probe_uri w args (malformed_loaded w args msg H))
    end;
    try match goal with
    | H1 : cfile w = Some (Parsed ?s), H2 : ?s !! _ = None |- _ =>
        pose proof (no_section_loaded w args _ H1 H2);
        pose proof (not_loaded_probe_uri w args (no_section_loaded w args _ H1 H2))
    end;
    try match goal with
    | H : loaded w (with_debug args d) = Some _ |- _ =>
        rewrite Hl in H; apply fmap_Some in H as (? & ? & ?)
    end;
    simplify_eq;
    try match goal with
    | H : snd (target_uri w {| srv := srv ?x; debug := _; cfg := cfg ?x; logger := _ |}) = ?r
      |- _ => change (snd (target_uri w x) = r) in H
    end;
    try match goal with
    | H : snd (on_failure_classes w
                 {| srv := srv ?x; debug := _; cfg := cfg ?x; logger := _ |}) = ?r
      |- _ => change (snd (on_failure_classes w x) = r) in H
    end;
    cbn [cfg srv] in *;
    try match goal with
    | H1 : loaded w args = Some ?self, H2 : snd (target_uri w ?self) = inl ?e |- _ =>
        pose proof (bad_settings_probe_uri w args _ _ H1 H2)
    end;
    try match goal with
    | H1 : loaded w args = Some ?self, H2 : snd (on_failure_classes w ?self) = inl ?e |- _ =>
        pose proof (bad_classes_failure_classes w args _ _ H1 H2)
    end;
    try match goal with
    | H1 : loaded w args = Some ?self,
      H2 : snd (ConfigParser.get _ _ _ "failure_action" _) = inl ?e |- _ =>
        pose proof (bad_action_failure_action w args _ _ H1 H2)
    end;
    try congruence;
    repeat match goal with
    | H1 : ?a = _, H2 : ?a = _ |- _ => rewrite H1 in H2; simplify_eq
    end;
    try congruence;
    unfold probed_trace, loading_records, checking_records, restarting_records,
      debug_records;
    cbn [debug_flag with_debug service fst snd];
    destruct d, (debug_flag args); split_and!; try done.
Qed.

(** ** The shape of every trace *)

(** X2. A run sends at most one GET: when the configuration loads and the
    settings give a URI, exactly one, to that URI, with nothing but the two
    DEBUG records before it; otherwise none. *)
Theorem one_get_to_the_probe_uri w args :
  match probe_uri w args with
  | Some uri =>
      exists after,
        trace w args =
          (loading_records args ++ checking_records args uri ++ HttpGet uri :: after)%list /\
        List.filter is_http_get after = []
  | None => List.filter is_http_get (trace w args) = []
  end.
Proof.
  by_paths w args;
    repeat match goal with H : probe_uri w args = _ |- _ => rewrite H; clear H end;
    try (eval_trace; done);
    unfold probed_trace; rewrite <- ?app_assoc;
    (eexists; split; [simpl; reflexivity|]); first [done|eval_trace; done].
Qed.

(** X3. A CRITICAL record is the last thing a run does: a run emits at
    most one, nothing follows it, and the run then ends with exit code 2
    when the configuration did not load and 1 otherwise. *)
Theorem critical_record_ends_the_run w args msg :
  Log CRITICAL msg ∈ trace w args ->
  last (trace w args) = Some (Log CRITICAL msg) /\
  List.filter is_critical (trace w args) = [Log CRITICAL msg] /\
  exit_code w args = match loaded w args with Some _ => 1 | None => 2 end.
Proof.
  intros Hin.
  by_paths w args;
    try match goal with
    | H : probe_uri w args = Some _ |- _ =>
        apply probe_uri_Some in H as (? & -> & ?)
    end;
    try match goal with H : loaded w args = _ |- _ => rewrite H end;
    try match goal with
    | H : cfile w = None |- _ => rewrite (no_file_loaded w args H)
    end;
    try match goal with
    | H1 : cfile w = Some (Parsed ?s), H2 : ?s !! _ = None |- _ =>
        rewrite (no_section_loaded w args _ H1 H2)
    end;
    eval_trace;
    apply list_elem_of_In in Hin; simpl in Hin;
    repeat (destruct Hin as [Hin|Hin]; [try discriminate Hin|]); try done;
    by simplify_eq.
Qed.

Lemma critical_record_ends_the_run_witness :
  exit_code Sample.no_file Sample.args = 2.
Proof.
  apply (critical_record_ends_the_run Sample.no_file Sample.args
           "Configuration file not found at ./tripleo-healthchecks.conf").
  apply list_elem_of_In. simpl. left. reflexivity.
Defined.

(** ** Failures nothing catches *)

(** X4. The bus calls of lines 104-107 are outside the [try]: when the run
    reaches the restart (unhealthy status after a readable
    [on_failure_classes] and a body that parses, [failure_action] equal to
    "restart") and the system bus cannot be opened, the DBusException
    leaves the script uncaught. The run ends on the bus call with exit
    status 1, without a CRITICAL record and without a restart request. *)
Theorem bus_failure_uncaught w args msg :
  decided w args false ->
  failure_action w args = Some "restart" ->
  system_bus w = DBusError msg ->
  snd (main w args) = inl (DBusException msg) /\
  exit_code w args = 1 /\
  last (trace w args) = Some SystemBus /\
  List.filter is_critical (trace w args) = [] /\
  List.filter is_restart_unit (trace w args) = [].
Proof.
  intros (uri & resp & classes & payload & Huri & Hhttp & Hclasses & Hjson & Hhealthy)
    %decided_paths Haction Hbus.
  by_paths w args; try congruence.
  split_and!; try done; eval_trace; done.
Qed.

Lemma bus_failure_uncaught_witness :
  snd (main Sample.no_bus Sample.args) = inl (DBusException "Failed to connect to socket") /\
  exit_code Sample.no_bus Sample.args = 1.
Proof.
  edestruct (bus_failure_uncaught Sample.no_bus Sample.args) as (H1 & H2 & _);
    [| | |split; [exact H1|exact H2]].
  - exists {| status_code := 503; text_json := Some Sample.payload |}, Sample.payload.
    split_and!; [reflexivity|eexists; reflexivity|reflexivity|reflexivity].
  - reflexivity.
  - reflexivity.
Defined.



(** X6. The script never runs off its end: every run leaves through
    [sys.exit] or through an exception nothing catches. Exit code 0 comes
    from [sys.exit(False)] and from nowhere else, [sys.exit(2)] is reached
    exactly when the configuration file is missing or is read and has no
    section for the service, and an exception other than SystemExit gives
    exit status 1. *)
Theorem main_always_exits w args :
  (exists e, snd (main w args) = inl e) /\
  (exit_code w args = 0 <-> snd (main w args) = inl (SystemExit (PyBool false))) /\
  (snd (main w args) = inl (SystemExit (PyInt 2)) <->
   cfile w = None \/
   exists sections,
     cfile w = Some (Parsed sections) /\ sections !! srv (init args) = None) /\
  (forall e, snd (main w args) = inl e -> (forall v, e <> SystemExit v) ->
     exit_code w args = 1).
Proof.
  split_and!.
  - by_paths w args; eauto.
  - by_paths w args; split; done.
  - split.
    + intros Hexit. by_paths w args; try done; eauto.
    + intros Hcfg.
      assert (Hnone : loaded w args = None).
      { destruct Hcfg as [H|(sections & H1 & H2)];
          [by apply no_file_loaded | by eapply no_section_loaded]. }
      pose proof (not_loaded_probe_uri w args Hnone).
      by_paths w args; try done; try congruence.
      destruct Hcfg as [?|(? & ? & ?)]; congruence.
  - intros e He Hv.
    by_paths w args; simplify_eq; try done; by edestruct Hv.
Qed.



(** X13. A setting [on_failure_classes] that cannot be interpolated ends
    the run at lines 80-82, after the GET is answered and before the body
    is parsed, whatever the status code and the body: the exception is not
    caught, the GET is the last event of the run, nothing is logged at INFO
    or CRITICAL level, the service manager is not called, and the exit
    status is 1. *)
Theorem unreadable_classes_uncaught w args uri resp :
  probe_uri w args = Some uri ->
  http w uri = Responded resp ->
  failure_classes w args = None ->
  (exists e, snd (main w args) = inl e /\ settings_error e = true) /\
  exit_code w args = 1 /\
  trace w args = (loading_records args ++ checking_records args uri ++ [HttpGet uri])%list /\
  List.filter is_info (trace w args) = [] /\
  List.filter is_critical (trace w args) = [] /\
  List.filter is_bus_call (trace w args) = [].
Proof.
  intros Huri Hhttp Hclasses.
  by_paths w args; try congruence;
    (split_and!; [eauto|done|done|eval_trace; done..]).
Qed.

Lemma unreadable_classes_uncaught_witness :
  let w := Sample.world Sample.nova_api_percent_classes (Sample.response 200) DBusOk in
  exit_code w Sample.args = 1 /\ trace w Sample.args = [HttpGet Sample.uri].
Proof.
  cbv zeta.
  edestruct (unreadable_classes_uncaught
               (Sample.world Sample.nova_api_percent_classes (Sample.response 200) DBusOk)
               Sample.args Sample.uri {| status_code := 200; text_json := Some Sample.payload |})
    as (_ & H1 & H2 & _); [reflexivity..|].
  split; [exact H1|exact H2].
Defined.

(** X14. A setting [failure_action] that cannot be interpolated ends the
    run at lines 91-93, after the payload is logged and before the restart
    decision, for healthy and unhealthy answers alike: the exception is not
    caught, the payload record is the last event of the run, the service
    manager is not called, and the exit status is 1. *)
Theorem unreadable_action_uncaught w args healthy :
  decided w args healthy ->
  failure_action w args = None ->
  (exists e, snd (main w args) = inl e /\ settings_error e = true) /\
  exit_code w args = 1 /\
  (exists uri resp payload,
     probe_uri w args = Some uri /\ http w uri = Responded resp /\
     body_json resp = Some payload /\
     trace w args = probed_trace args uri payload) /\
  List.filter is_critical (trace w args) = [] /\
  List.filter is_bus_call (trace w args) = [].
Proof.
  intros (uri & resp & classes & payload & Huri & Hhttp & Hclasses & Hjson & Hhealthy)
    %decided_paths Haction.
  by_paths w args; try congruence;
    (split_and!; [eauto|done|eauto 10|eval_trace; done..]).
Qed.

Lemma unreadable_action_uncaught_witness :
  let w := Sample.world Sample.nova_api_percent_action (Sample.response 200) DBusOk in
  exit_code w Sample.args = 1.
Proof.
  cbv zeta.
  edestruct (unreadable_action_uncaught
               (Sample.world Sample.nova_api_percent_action (Sample.response 200) DBusOk)
               Sample.args true) as (_ & H1 & _); [|reflexivity|exact H1].
  exists {| status_code := 200; text_json := Some Sample.payload |}, Sample.payload.
  split_and!; [reflexivity|eexists; reflexivity|reflexivity|reflexivity].
Defined.

(** X15. A configuration file that exists but that [read] cannot parse
    ends the run inside [load_config]: the exception is neither
    FileNotFoundError nor LookupError, so lines 131-136 do not catch it; no
    CRITICAL record is emitted, no GET is sent, the service manager is not
    called, and the exit status is 1, not the 2 of a configuration error. *)
Theorem malformed_file_uncaught w args msg :
  cfile w = Some (Malformed msg) ->
  main w args = (loading_records args, inl (ParsingError msg)) /\
  loaded w args = None /\
  exit_code w args = 1 /\
  List.filter is_critical (trace w args) = [] /\
  List.filter is_http_get (trace w args) = [] /\
  List.filter is_bus_call (trace w args) = [].
Proof.
  intros Hfile.
  by_paths w args; try congruence.
  simplify_eq. split_and!; try done; eval_trace; done.
Qed.

Lemma malformed_file_uncaught_witness :
  main Sample.malformed Sample.args
    = ([], inl (ParsingError "File contains no section headers.")) /\
  exit_code Sample.malformed Sample.args = 1.
Proof.
  destruct (malformed_file_uncaught Sample.malformed Sample.args
              "File contains no section headers." eq_refl) as (H1 & _ & H2 & _).
  split; [exact H1|exact H2].
Defined.

(** ** The settings of the probe *)

Lemma get_cases py c section values opt fallback :
  c !! section = Some values ->
  ConfigParser.get py c section opt fallback =
  match values !! opt with
  | Some v =>
      match ConfigParser.before_get py values v with
      | inr x => ([], inr x)
      | inl ie => ([], inl (ConfigParser.interpolation_exn ie opt section))
      end
  | None =>
      match fallback with
      | Some d => ([], inr d)
      | None => ([], inl (NoOptionError opt section))
      end
  end.
Proof.
  intros Hsec. unfold ConfigParser.get. rewrite Hsec.
  by repeat case_match.
Qed.

(** What [target_uri] gives for settings written without "%". *)
Lemma target_uri_plain w self values host port endpoint :
  cfg self !! srv self = Some values ->
  values !! "host" = Some host -> PyStr.contains "%" host = false ->
  values !! "port" = Some port -> PyStr.contains "%" port = false ->
  values !! "endpoint" = Some endpoint -> PyStr.contains "%" endpoint = false ->
  (forall v, values !! "tls" = Some v -> PyStr.contains "%" v = false) ->
  target_uri w self =
  let rest (tls : bool) : M string :=
    match PyNum.int_of_str (python w) port with
    | None => ([], inl (ValueError port))
    | Some n =>
        ([], inr ("http" +:+ (if tls then "s" else "") +:+ "://" +:+ host +:+ ":"
                  +:+ PyNum.int_repr n +:+ endpoint))
    end in
  match values !! "tls" with
  | None => rest false
  | Some v =>
      if bool_decide (str_lower (python w) v ∈ ConfigParser.true_words) then rest true
      else if bool_decide (str_lower (python w) v ∈ ConfigParser.false_words) then rest false
      else ([], inl (ValueError v))
  end.
Proof.
  intros Hsec Hhost Hh Hport Hp Hendpoint He Htls.
  unfold target_uri. rewrite getboolean_cases, getint_cases.
  rewrite !(get_plain _ _ _ values) by (try done; intros ?; rewrite ?Hhost, ?Hport, ?Hendpoint;
                                         by intros [= <-]).
  rewrite Hhost, Hport, Hendpoint. cbv zeta.
  destruct (values !! "tls") as [v|]; cbn [snd];
    [unfold ConfigParser.convert_to_boolean;
     destruct (bool_decide (str_lower (python w) v ∈ ConfigParser.true_words));
     [|destruct (bool_decide (str_lower (python w) v ∈ ConfigParser.false_words))]|];
    cbn [bind ret raise snd app]; try done;
    destruct (PyNum.int_of_str (python w) port); cbn [bind ret raise snd app]; done.
Qed.

Lemma probe_uri_loaded_object w args sections values :
  cfile w = Some (Parsed sections) ->
  sections !! srv (init args) = Some values ->
  loaded w args = Some (loaded_object args sections) /\
  probe_uri w args =
    match snd (target_uri w (loaded_object args sections)) with
    | inr uri => Some uri
    | inl _ => None
    end.
Proof.
  intros Hfile Hsec.
  assert (Hl : loaded w args = Some (loaded_object args sections)).
  { apply loaded_Some. exists sections. by rewrite Hsec. }
  split; [done|]. unfold probe_uri. by rewrite Hl.
Qed.

Lemma false_words_not_true v :
  v ∈ ConfigParser.false_words ->
  bool_decide (v ∈ ConfigParser.true_words) = false /\
  bool_decide (v ∈ ConfigParser.false_words) = true.
Proof.
  intros Hv. split; [|by apply bool_decide_eq_true].
  apply list_elem_of_In in Hv. simpl in Hv.
  repeat (destruct Hv as [<-|Hv]; [done|]). done.
Qed.

(** X7. For settings written without "%": the URI of the probe is "http",
    an "s" when [tls] reads as true, "://", the host, ":", the port in
    decimal and the endpoint. [tls] may be missing (plain http) and is read
    without regard to case; the port is what [int] reads from the setting,
    written back in decimal. *)
Theorem probe_uri_format w args sections values host port n endpoint :
  cfile w = Some (Parsed sections) ->
  sections !! srv (init args) = Some values ->
  values !! "host" = Some host -> PyStr.contains "%" host = false ->
  values !! "port" = Some port -> PyStr.contains "%" port = false ->
  PyNum.int_of_str (python w) port = Some n ->
  values !! "endpoint" = Some endpoint -> PyStr.contains "%" endpoint = false ->
  (values !! "tls" = None \/
   (exists v, values !! "tls" = Some v /\ PyStr.contains "%" v = false /\
      str_lower (python w) v ∈ ConfigParser.false_words) ->
   probe_uri w args =
     Some ("http://" +:+ host +:+ ":" +:+ PyNum.int_repr n +:+ endpoint)) /\
  (forall v, values !! "tls" = Some v -> PyStr.contains "%" v = false ->
   str_lower (python w) v ∈ ConfigParser.true_words ->
   probe_uri w args =
     Some ("https://" +:+ host +:+ ":" +:+ PyNum.int_repr n +:+ endpoint)).
Proof.
  intros Hfile Hsec Hhost Hh Hport Hp Hint Hendpoint He.
  destruct (probe_uri_loaded_object w args sections values Hfile Hsec) as [_ ->].
  split.
  - intros Htls.
    rewrite (target_uri_plain w _ values host port endpoint); try done.
    + cbv zeta. rewrite Hint. destruct Htls as [->|(v & -> & _ & Hv)]; [done|].
      destruct (false_words_not_true _ Hv) as [-> ->]. done.
    + intros v Hv. destruct Htls as [Hnone|(v' & Hv' & Hplain & _)]; congruence.
  - intros v Hv Hplain Htrue.
    rewrite (target_uri_plain w _ values host port endpoint); try done.
    + cbv zeta. rewrite Hint, Hv. by rewrite bool_decide_eq_true_2.
    + intros v' Hv'. congruence.
Qed.

Lemma probe_uri_format_witness :
  probe_uri (Sample.world Sample.nova_api (Sample.response 200) DBusOk) Sample.args =
    Some "http://127.0.0.1:8989/healthcheck" /\
  probe_uri (Sample.world Sample.nova_api_tls (Sample.response 200) DBusOk) Sample.args =
    Some "https://127.0.0.1:8989/healthcheck".
Proof.
  split.
  - apply (proj1 (probe_uri_format
                    (Sample.world Sample.nova_api (Sample.response 200) DBusOk) Sample.args
                    {[ "nova-api" := Sample.nova_api ]} Sample.nova_api
                    "127.0.0.1" "8989" 8989 "/healthcheck"
                    eq_refl eq_refl eq_refl eq_refl eq_refl eq_refl eq_refl eq_refl eq_refl)).
    right. exists "false". split_and!; [reflexivity..|].
    apply list_elem_of_In. simpl. tauto.
  - apply (proj2 (probe_uri_format
                    (Sample.world Sample.nova_api_tls (Sample.response 200) DBusOk) Sample.args
                    {[ "nova-api" := Sample.nova_api_tls ]} Sample.nova_api_tls
                    "127.0.0.1" "+8_989" 8989 "/healthcheck"
                    eq_refl eq_refl eq_refl eq_refl eq_refl eq_refl eq_refl eq_refl eq_refl)
                  "Yes").
    + reflexivity.
    + reflexivity.
    + apply list_elem_of_In. simpl. tauto.
Defined.

Lemma get_error_kind py c section values opt e :
  c !! section = Some values ->
  snd (ConfigParser.get py c section opt None) = inl e ->
  (e = NoOptionError opt section /\ values !! opt = None) \/
  (exists ie, e = ConfigParser.interpolation_exn ie opt section).
Proof.
  intros Hsec. rewrite (get_cases _ _ _ values) by done.
  destruct (values !! opt) as [v|]; [|intros [= <-]; by left].
  destruct (ConfigParser.before_get py values v) as [ie|x]; [|done].
  intros [= <-]. eauto.
Qed.

Lemma target_uri_error_kind w self values e :
  cfg self !! srv self = Some values ->
  snd (target_uri w self) = inl e ->
  (forall s, e <> NoSectionError s) /\
  (forall opt s, e = NoOptionError opt s ->
     opt ∈ ["host"; "port"; "endpoint"] /\ s = srv self /\ values !! opt = None).
Proof.
  intros Hsec. unfold target_uri.
  rewrite bind_pure by apply getboolean_pure.
  destruct (snd (ConfigParser.getboolean _ _ _ _ _)) as [e1|tls] eqn:H1.
  { simpl. intros [= <-]. rewrite getboolean_cases in H1.
    destruct (snd (ConfigParser.get _ _ _ "tls" _)) as [e'|v] eqn:Hget.
    - destruct (get_error_kind _ _ _ values _ _ Hsec Hget) as [[-> _]|[ie ->]];
        [simpl in H1; by simplify_eq|].
      destruct ie; simpl in H1; by simplify_eq.
    - simpl in H1. apply convert_to_boolean_error in H1 as ->. done. }
  rewrite bind_pure by apply get_pure.
  destruct (snd (ConfigParser.get _ _ _ "host" _)) as [e2|host] eqn:H2.
  { simpl. intros [= <-].
    destruct (get_error_kind _ _ _ values _ _ Hsec H2) as [[-> Hnone]|[ie ->]].
    - split; [done|]. intros opt s [= <- <-]. split_and!; [|done..].
      apply list_elem_of_In. simpl. tauto.
    - by destruct ie. }
  rewrite bind_pure by apply getint_pure.
  destruct (snd (ConfigParser.getint _ _ _ _)) as [e3|port] eqn:H3.
  { simpl. intros [= <-]. rewrite getint_cases in H3.
    destruct (snd (ConfigParser.get _ _ _ "port" _)) as [e'|v] eqn:Hget.
    - simpl in H3. simplify_eq.
      destruct (get_error_kind _ _ _ values _ _ Hsec Hget) as [[-> Hnone]|[ie ->]].
      + split; [done|]. intros opt s [= <- <-]. split_and!; [|done..].
        apply list_elem_of_In. simpl. tauto.
      + by destruct ie.
    - destruct (PyNum.int_of_str _ v); simpl in H3; by simplify_eq. }
  rewrite bind_pure by apply get_pure.
  destruct (snd (ConfigParser.get _ _ _ "endpoint" _)) as [e4|endpoint] eqn:H4; [|done].
  simpl. intros [= <-].
  destruct (get_error_kind _ _ _ values _ _ Hsec H4) as [[-> Hnone]|[ie ->]].
  - split; [done|]. intros opt s [= <- <-]. split_and!; [|done..].
    apply list_elem_of_In. simpl. tauto.
  - by destruct ie.
Qed.

(** X8. With the section of the service in the file, a run whose settings
    give no URI ends before anything else happens: [run_check] raises at
    lines 64-71, the run emits nothing beyond the first DEBUG record, in
    particular no CRITICAL record and no GET, and ends with exit status 1
    on the uncaught exception. That exception is never NoSectionError, and
    a NoOptionError names one of [host], [port] and [endpoint], missing in
    the section: a missing [tls] is no error. *)
Theorem invalid_settings_abort w args sections values :
  cfile w = Some (Parsed sections) ->
  sections !! srv (init args) = Some values ->
  probe_uri w args = None ->
  trace w args = loading_records args /\
  exit_code w args = 1 /\
  exists e,
    snd (main w args) = inl e /\
    settings_error e = true /\
    (forall s, e <> NoSectionError s) /\
    (forall opt s, e = NoOptionError opt s ->
       opt ∈ ["host"; "port"; "endpoint"] /\ s = srv (init args) /\ values !! opt = None).
Proof.
  intros Hfile Hsec Hnone.
  destruct (probe_uri_loaded_object w args sections values Hfile Hsec) as [Hl _].
  unfold trace, exit_code.
  destruct (main_spec w args) as
    [Hf|msg' Hf|sections' Hf Hs|self e Hl' He Hse|uri msg Hp|uri msg Hp|self uri resp e Hl' Hp
    |uri resp classes Hp|self uri resp classes status e Hl' Hp
    |uri resp classes status action Hp|uri resp classes status action Hp
    |uri resp classes status msg Hp|uri resp classes status msg Hp
    |uri resp classes status Hp]; try congruence.
  assert (self = loaded_object args sections) as -> by congruence.
  destruct (target_uri_error_kind w (loaded_object args sections) values e Hsec He)
    as [Hns Hno].
  cbn [fst snd]. split; [done|]. split.
  - destruct e; try discriminate Hse; done.
  - exists e. split_and!; done.
Qed.

Lemma invalid_settings_abort_witness :
  let w := Sample.world (delete "endpoint" Sample.nova_api) (Sample.response 200) DBusOk in
  trace w Sample.args = [] /\ exit_code w Sample.args = 1.
Proof.
  cbv zeta.
  destruct (invalid_settings_abort
              (Sample.world (delete "endpoint" Sample.nova_api)
                 (Sample.response 200) DBusOk)
              Sample.args
              {[ "nova-api" := delete "endpoint" Sample.nova_api ]}
              (delete "endpoint" Sample.nova_api) eq_refl eq_refl)
    as (Ht & He & _); [reflexivity|].
  split; [exact Ht|exact He].
Defined.

(** ** [int] reads back what [str] writes *)

Lemma rev_app_rev_app s1 s2 s3 :
  String.rev_app (String.rev_app s1 s2) s3 = String.rev_app s2 (s1 +:+ s3).
Proof.
  revert s2. induction s1 as [|a s1 IH]; intros s2; [done|].
  cbn [String.rev_app]. rewrite IH. cbn [String.rev_app]. by rewrite append_cons.
Qed.

Lemma rev_involutive s : String.rev (String.rev s) = s.
Proof. unfold String.rev. by rewrite rev_app_rev_app, append_nil_r. Qed.

Lemma no_space_rev_app s1 s2 :
  no_space (String.rev_app s1 s2) = no_space s1 && no_space s2.
Proof.
  revert s2. induction s1 as [|a s1 IH]; intros s2; [done|].
  cbn [String.rev_app no_space]. rewrite IH. cbn [no_space].
  by destruct (PyNum.is_space a), (no_space s1), (no_space s2).
Qed.

Lemma lstrip_no_space s : no_space s = true -> PyNum.lstrip s = s.
Proof.
  destruct s as [|a s]; [done|]. cbn [no_space PyNum.lstrip].
  by destruct (PyNum.is_space a).
Qed.

Lemma strip_no_space s : no_space s = true -> PyNum.strip s = s.
Proof.
  intros Hs. unfold PyNum.strip. rewrite (lstrip_no_space s Hs).
  rewrite lstrip_no_space; [apply rev_involutive|].
  unfold String.rev. by rewrite no_space_rev_app, Hs.
Qed.

Lemma digit_val_digit_char d :
  (d < 10)%nat -> PyNum.digit_val (PyNum.digit_char d) = Some (Z.of_nat d).
Proof. intros Hd. do 10 (destruct d as [|d]; [reflexivity|]). lia. Qed.

Lemma digit_char_no_space d : PyNum.is_space (PyNum.digit_char d) = false.
Proof.
  pose proof (digit_char_code d) as Hd. unfold PyNum.is_space.
  destruct (Nat.eqb_spec (nat_of_ascii (PyNum.digit_char d)) 32); [lia|].
  destruct (Nat.leb_spec 9 (nat_of_ascii (PyNum.digit_char d))); [|lia].
  destruct (Nat.leb_spec (nat_of_ascii (PyNum.digit_char d)) 13); [lia|done].
Qed.

Lemma digits_str_no_space ds : no_space (PyNum.digits_str ds) = true.
Proof.
  induction ds as [|d ds IH]; [done|].
  cbn [PyNum.digits_str no_space]. by rewrite digit_char_no_space, IH.
Qed.

Lemma uint_digits_small u : Forall (fun d => (d < 10)%nat) (PyNum.uint_digits u).
Proof. induction u; cbn [PyNum.uint_digits]; constructor; (lia || done). Qed.

Lemma int_digits_acc u (acc : positive) :
  PyNum.int_digits (PyNum.digits_str (PyNum.uint_digits u)) (Z.pos acc) true =
  Some (Z.pos (Pos.of_uint_acc u acc)).
Proof.
  revert acc. induction u; intros acc;
    cbn [PyNum.uint_digits PyNum.digits_str PyNum.int_digits Pos.of_uint_acc]; [done|..];
    rewrite digit_val_digit_char by lia;
    match goal with
    | |- PyNum.int_digits _ ?z true = Some (Z.pos (Pos.of_uint_acc _ ?p)) =>
        replace z with (Z.pos p) by lia
    end; apply IHu.
Qed.

Lemma int_digits_uint u b :
  u <> Decimal.Nil \/ b = true ->
  PyNum.int_digits (PyNum.digits_str (PyNum.uint_digits u)) 0 b =
  Some (Z.of_N (Pos.of_uint u)).
Proof.
  revert b. induction u; intros b Hb;
    cbn [PyNum.uint_digits PyNum.digits_str PyNum.int_digits Pos.of_uint];
    [by destruct Hb as [ | -> ]|..];
    rewrite digit_val_digit_char by lia;
    [apply IHu; by right|..];
    match goal with
    | |- PyNum.int_digits _ ?z true = Some (Z.of_N (N.pos (Pos.of_uint_acc _ ?p))) =>
        change z with (Z.pos p)
    end; by rewrite int_digits_acc.
Qed.

Lemma int_literal_digits u :
  u <> Decimal.Nil ->
  PyNum.int_literal (PyNum.digits_str (PyNum.uint_digits u)) =
  Some (Z.of_N (Pos.of_uint u)).
Proof.
  intros Hu. unfold PyNum.int_literal.
  rewrite strip_no_space by apply digits_str_no_space.
  rewrite <- (int_digits_uint u false) by (by left).
  destruct u; [done|..]; cbn [PyNum.uint_digits PyNum.digits_str];
    match goal with
    | |- context [PyNum.digit_char ?k] =>
        let c := eval vm_compute in (PyNum.digit_char k) in
        change (PyNum.digit_char k) with c
    end; reflexivity.
Qed.

Lemma int_literal_int_repr n : PyNum.int_literal (PyNum.int_repr n) = Some n.
Proof.
  destruct n as [|p|p]; [reflexivity| |]; cbn [PyNum.int_repr].
  - rewrite int_literal_digits by apply DecimalPos.Unsigned.to_uint_nonnil.
    by rewrite DecimalPos.Unsigned.of_to.
  - change ("-" +:+ ?s) with (String "-"%char s).
    unfold PyNum.int_literal. rewrite strip_no_space.
    + rewrite int_digits_uint by (left; apply DecimalPos.Unsigned.to_uint_nonnil).
      by rewrite DecimalPos.Unsigned.of_to.
    + cbn [no_space]. by rewrite digits_str_no_space.
Qed.


Lemma digits_str_ascii ds : PyStr.is_ascii (PyNum.digits_str ds) = true.
Proof.
  induction ds as [|d ds IH]; [done|].
  cbn [PyNum.digits_str PyStr.is_ascii]. rewrite IH, andb_true_r.
  pose proof (digit_char_code d). apply Nat.ltb_lt. lia.
Qed.

Lemma digits_str_no_percent ds : PyStr.contains "%" (PyNum.digits_str ds) = false.
Proof.
  induction ds as [|d ds IH]; [done|].
  cbn [PyNum.digits_str PyStr.contains]. rewrite IH, orb_false_r.
  apply Ascii.eqb_neq. intros Hd. pose proof (digit_char_code d) as Hc.
  rewrite Hd in Hc. change (nat_of_ascii "%") with 37%nat in Hc. lia.
Qed.

Lemma int_repr_ascii n : PyStr.is_ascii (PyNum.int_repr n) = true.
Proof.
  destruct n as [|p|p]; [done|apply digits_str_ascii|].
  cbn [PyNum.int_repr]. change ("-" +:+ ?s) with (String "-"%char s).
  cbn [PyStr.is_ascii]. by rewrite digits_str_ascii.
Qed.

Lemma int_repr_no_percent n : PyStr.contains "%" (PyNum.int_repr n) = false.
Proof.
  destruct n as [|p|p]; [done|apply digits_str_no_percent|].
  cbn [PyNum.int_repr]. change ("-" +:+ ?s) with (String "-"%char s).
  cbn [PyStr.contains]. by rewrite digits_str_no_percent.
Qed.

(** [int] reads back what [str] writes, within the limit on digits. *)
Lemma int_of_str_int_repr py n :
  PyNum.within_digit_limit py (PyNum.count_digits (PyNum.int_repr n)) = true ->
  PyNum.int_of_str py (PyNum.int_repr n) = Some n.
Proof.
  intros Hlimit. unfold PyNum.int_of_str.
  by rewrite int_repr_ascii, int_literal_int_repr, Hlimit.
Qed.

(** X9. Within the limit the interpreter puts on the digits of a literal,
    [getint] reads back every integer from its decimal notation, so a port
    written that way reaches the URI as it stands in the file (the other
    settings being written without "%"). No range is checked: zero and
    negative numbers are accepted like any other. *)
Theorem decimal_port_kept w args sections values host n endpoint :
  cfile w = Some (Parsed sections) ->
  sections !! srv (init args) = Some values ->
  values !! "tls" = None ->
  values !! "host" = Some host -> PyStr.contains "%" host = false ->
  values !! "port" = Some (PyNum.int_repr n) ->
  PyNum.within_digit_limit (python w) (PyNum.count_digits (PyNum.int_repr n)) = true ->
  values !! "endpoint" = Some endpoint -> PyStr.contains "%" endpoint = false ->
  ConfigParser.getint (python w) sections (srv (init args)) "port" = ([], inr n) /\
  probe_uri w args =
    Some ("http://" +:+ host +:+ ":" +:+ PyNum.int_repr n +:+ endpoint).
Proof.
  intros Hfile Hsec Htls Hhost Hh Hport Hlimit Hendpoint He. split.
  - rewrite getint_cases, (get_plain _ _ _ values), Hport; [|done|].
    + cbn [snd]. by rewrite int_of_str_int_repr.
    + rewrite Hport. intros ? [= <-]. apply int_repr_no_percent.
  - destruct (probe_uri_loaded_object w args sections values Hfile Hsec) as [_ ->].
    rewrite (target_uri_plain w _ values host (PyNum.int_repr n) endpoint);
      try done; [|apply int_repr_no_percent|by rewrite Htls].
    cbv zeta. by rewrite Htls, int_of_str_int_repr.
Qed.

Lemma decimal_port_kept_witness :
  probe_uri (Sample.world (<["port" := "-1"]> (delete "tls" Sample.nova_api))
               (Sample.response 200) DBusOk) Sample.args =
  Some "http://127.0.0.1:-1/healthcheck".
Proof.
  apply (decimal_port_kept
           (Sample.world (<["port" := "-1"]> (delete "tls" Sample.nova_api))
              (Sample.response 200) DBusOk) Sample.args
           {[ "nova-api" := <["port" := "-1"]> (delete "tls" Sample.nova_api) ]}
           (<["port" := "-1"]> (delete "tls" Sample.nova_api))
           "127.0.0.1" (-1) "/healthcheck"); reflexivity.
Defined.

(** ** What [os.path.splitext] cuts off *)

Lemma take_drop n s : PyStr.take n s +:+ PyStr.drop n s = s.
Proof.
  revert s. induction n as [|n IH]; intros [|a s]; try done.
  cbn [PyStr.take PyStr.drop]. by rewrite append_cons, IH.
Qed.

Lemma drop_drop n m s : PyStr.drop m (PyStr.drop n s) = PyStr.drop (n + m) s.
Proof.
  revert s. induction n as [|n IH]; intros s; [done|].
  destruct s as [|a s]; [by destruct m|]. apply IH.
Qed.

Lemma contains_drop c n s :
  PyStr.contains c s = false -> PyStr.contains c (PyStr.drop n s) = false.
Proof.
  revert s. induction n as [|n IH]; intros [|a s]; try done.
  cbn [PyStr.contains PyStr.drop]. intros [_ Hs]%orb_false_iff. by apply IH.
Qed.

Lemma rfind_from_last c s i last :
  (PyStr.rfind_from c s i last = last /\ PyStr.contains c s = false) \/
  (i <= PyStr.rfind_from c s i last /\
   exists a b, s = a +:+ String c b /\
     Z.of_nat (String.length a) = PyStr.rfind_from c s i last - i /\
     PyStr.contains c b = false).
Proof.
  revert i last. induction s as [|x s IH]; intros i last; [by left|].
  cbn [PyStr.rfind_from PyStr.contains].
  destruct (IH (i + 1) (if Ascii.eqb x c then i else last))
    as [[Hr Hs]|(Hr & a & b & Hs & Hlen & Hb)].
  - rewrite Hr, Hs. destruct (Ascii.eqb_spec x c) as [->|Hx]; [|by left].
    right. split; [lia|]. exists "", s. split_and!; [done|cbn; lia|done].
  - right. split; [lia|]. exists (String x a), b.
    split_and!; [by rewrite append_cons, <- Hs|cbn [String.length]; lia|done].
Qed.

Lemma splitext_loop_cases p dotIndex n f :
  OsPath.splitext_loop p dotIndex n f = (p, "") \/
  OsPath.splitext_loop p dotIndex n f =
    (PyStr.take (Z.to_nat dotIndex) p, PyStr.drop (Z.to_nat dotIndex) p).
Proof.
  revert f. induction n as [|n IH]; intros f; [by left|].
  cbn [OsPath.splitext_loop]. destruct (negb _); [by right|apply IH].
Qed.

Lemma splitext_cases p :
  OsPath.splitext p = (p, "") \/
  (PyStr.rfind p OsPath.sep < PyStr.rfind p OsPath.extsep /\
   OsPath.splitext p =
     (PyStr.take (Z.to_nat (PyStr.rfind p OsPath.extsep)) p,
      PyStr.drop (Z.to_nat (PyStr.rfind p OsPath.extsep)) p)).
Proof.
  unfold OsPath.splitext.
  destruct (Z.gtb_spec (PyStr.rfind p OsPath.extsep) (PyStr.rfind p OsPath.sep));
    [|left; by destruct p].
  destruct (splitext_loop_cases p (PyStr.rfind p OsPath.extsep)
              (Z.to_nat (PyStr.rfind p OsPath.extsep - (PyStr.rfind p OsPath.sep + 1)))
              (PyStr.rfind p OsPath.sep + 1)) as [->| ->]; [by left|right].
  split; [lia|done].
Qed.

(** X10. The service identity is a prefix of the argument, and what
    [__init__] drops after it is nothing or one extension: a dot followed
    by characters among which there is neither a dot nor a slash. *)
Theorem identity_is_prefix args :
  let ext := snd (OsPath.splitext (service args)) in
  service args = srv (init args) +:+ ext /\
  (ext = "" \/
   exists e, ext = String "." e /\
     PyStr.contains "." e = false /\ PyStr.contains "/" e = false).
Proof.
  cbv zeta. unfold init. cbn [srv]. generalize (service args) as p. intros p.
  destruct (splitext_cases p) as [->|[Hlt ->]]; cbn [fst snd].
  { split; [by rewrite append_nil_r|by left]. }
  split; [by rewrite take_drop|right].
  pose proof (rfind_from_bound OsPath.sep p 0 (-1)) as Hsep.
  unfold PyStr.rfind in *.
  destruct (rfind_from_last OsPath.extsep p 0 (-1))
    as [[Hr _]|(Hr & a & b & Hp & Hlen & Hb)]; [lia|].
  assert (Hdrop : PyStr.drop (String.length a) p = String OsPath.extsep b)
    by (by rewrite Hp, drop_append).
  replace (Z.to_nat (PyStr.rfind_from OsPath.extsep p 0 (-1)))
    with (String.length a) by lia.
  rewrite Hdrop. exists b. split_and!; [done..|].
  assert (Hb' : b = PyStr.drop (String.length a + 1) p)
    by (by rewrite <- drop_drop, Hdrop).
  destruct (rfind_from_last OsPath.sep p 0 (-1))
    as [[_ Hnone]|(Hr' & a' & b' & Hp' & Hlen' & Hnone)].
  - rewrite Hb'. by apply contains_drop.
  - assert (Hb'' : b' = PyStr.drop (String.length a' + 1) p).
    { rewrite <- drop_drop. by rewrite Hp' at 1; rewrite drop_append. }
    rewrite Hb'.
    replace (String.length a + 1)%nat
      with ((String.length a' + 1) + (String.length a - String.length a'))%nat by lia.
    rewrite <- drop_drop, <- Hb''. by apply contains_drop.
Qed.

(** ** The pieces of [str.split] *)

Lemma contains_rev_app c s1 s2 :
  PyStr.contains c (String.rev_app s1 s2) = PyStr.contains c s1 || PyStr.contains c s2.
Proof.
  revert s2. induction s1 as [|a s1 IH]; intros s2; [done|].
  cbn [String.rev_app PyStr.contains]. rewrite IH. cbn [PyStr.contains].
  by destruct (Ascii.eqb a c), (PyStr.contains c s1).
Qed.

Lemma split_from_pieces sep s cur :
  PyStr.contains sep cur = false ->
  Forall (fun piece => PyStr.contains sep piece = false) (PyStr.split_from sep s cur).
Proof.
  revert cur. induction s as [|a s IH]; intros cur Hcur; cbn [PyStr.split_from].
  - constructor; [|done]. unfold String.rev. by rewrite contains_rev_app, Hcur.
  - destruct (Ascii.eqb a sep) eqn:Ha.
    + constructor; [|by apply IH].
      unfold String.rev. by rewrite contains_rev_app, Hcur.
    + apply IH. cbn [PyStr.contains]. by rewrite Ha.
Qed.

Lemma split_from_length sep s cur :
  length (PyStr.split_from sep s cur) = S (PyStr.count sep s).
Proof.
  revert cur. induction s as [|a s IH]; intros cur; [done|].
  cbn [PyStr.split_from PyStr.count]. destruct (Ascii.eqb a sep); [|apply IH].
  cbn [length]. by rewrite IH.
Qed.


(** X11. When [run_check] reads [on_failure_classes] without error, the
    list it keeps has one element more than the text read has commas, and
    none of its elements contains a comma; the text read is the empty
    string for a missing setting (one element) and the setting itself when
    it is written without "%". The read raises only for a setting that
    holds a "%", and then no list is kept. *)
Theorem on_failure_classes_pieces w self values :
  cfg self !! srv self = Some values ->
  match snd (on_failure_classes w self) with
  | inr pieces =>
      exists text,
        snd (ConfigParser.get (python w) (cfg self) (srv self)
               "on_failure_classes" (Some "")) = inr text /\
        length pieces = S (PyStr.count "," text) /\
        Forall (fun piece => PyStr.contains "," piece = false) pieces /\
        (values !! "on_failure_classes" = None -> text = "") /\
        (forall raw, values !! "on_failure_classes" = Some raw ->
           PyStr.contains "%" raw = false -> text = raw)
  | inl e =>
      settings_error e = true /\
      exists raw, values !! "on_failure_classes" = Some raw /\
        PyStr.contains "%" raw = true
  end.
Proof.
  intros Hsec. rewrite on_failure_classes_cases.
  rewrite (get_cases _ _ _ values) by done.
  destruct (values !! "on_failure_classes") as [raw|] eqn:Hraw.
  - destruct (ConfigParser.before_get (python w) values raw) as [ie|text] eqn:Hget; cbn [snd].
    + split; [by destruct ie|]. exists raw. split; [done|].
      destruct (PyStr.contains "%" raw) eqn:Hp; [done|].
      by rewrite before_get_plain in Hget.
    + exists text. split_and!; [done|apply split_from_length|by apply split_from_pieces|done|].
      intros ? [= <-] Hp. rewrite before_get_plain in Hget by done. by simplify_eq.
  - cbn [snd]. exists "". split_and!; [done|done|by repeat constructor|done|done].
Qed.

Lemma on_failure_classes_pieces_witness :
  let w := Sample.world Sample.nova_api (Sample.response 200) DBusOk in
  let values := <["on_failure_classes" := "a,b,,c"]> Sample.nova_api in
  let self := loaded_object Sample.args {[ "nova-api" := values ]} in
  snd (on_failure_classes w self) = inr ["a"; "b"; ""; "c"] /\
  exists pieces,
    snd (on_failure_classes w self) = inr pieces /\
    length pieces = 4%nat /\
    Forall (fun piece => PyStr.contains "," piece = false) pieces.
Proof.
  cbv zeta. split; [reflexivity|].
  pose proof (on_failure_classes_pieces
                (Sample.world Sample.nova_api (Sample.response 200) DBusOk)
                (loaded_object Sample.args
                   {[ "nova-api" := <["on_failure_classes" := "a,b,,c"]> Sample.nova_api ]})
                (<["on_failure_classes" := "a,b,,c"]> Sample.nova_api) eq_refl) as H.
  destruct (snd (on_failure_classes _ _)) as [e|pieces].
  - destruct H as (_ & raw & Hraw & Hp).
    rewrite lookup_insert_eq in Hraw. injection Hraw as <-. discriminate Hp.
  - destruct H as (text & _ & Hlen & Hpieces & _ & Htext).
    rewrite (Htext "a,b,,c" (lookup_insert_eq _ _ _) eq_refl) in Hlen.
    exists pieces. split_and!; [reflexivity|exact Hlen|exact Hpieces].
Defined.
